(** * matplotlib_ephys.plotting: scale bars, styles and trace plots

    A shallow embedding of [matplotlib_ephys/plotting.py].

    Python's [float] is IEEE-754 binary64; it is embedded as Rocq's primitive
    [float], whose operations are the same correctly rounded binary64
    operations.  The two arithmetic kernels of the module
    ([compute_scale_bar_length] and [compute_scale_bar_position]) are written
    once over an interface [FloatArith] of the operations they use, and read
    at two instances: [binary64] (what the interpreter runs) and [exact]
    (the same expressions over the rationals, without rounding).

    Calls into matplotlib act on an explicit store of axes.  What matplotlib
    decides on its own (whether it accepts the data of a plot and the size of
    a figure, which view limits it stores for the ones requested, whether
    drawing the figure succeeds and what a text then measures) is a parameter
    of the development, of type [Matplotlib]. *)

From Stdlib Require Import ZArith QArith Qabs Qround Floats List String Ascii Bool.
From Stdlib Require Import DecimalString Lia Lqa.
From Stdlib Require DecimalFacts DecimalPos DecimalN Nnat.
Import ListNotations.

Set Implicit Arguments.
Open Scope string_scope.
#[local] Set Warnings "-inexact-float".

(* ================================================================== *)
(** * Numbers *)

(** The float operations the module uses.  [float_of_int] is the implicit
    conversion of a Python [int] operand in mixed arithmetic, [float_lit] the
    value of a decimal literal such as [1.2]. *)
Class FloatArith (F : Type) : Type := {
  fadd : F -> F -> F;
  fsub : F -> F -> F;
  fmul : F -> F -> F;
  fabs : F -> F;
  fltb : F -> F -> bool;
  float_of_int : Z -> F;
  float_lit : Q -> F
}.

(** [float(z)]: the integer rounded to the nearest binary64 (ties to even).
    The integers of the module are small; Python raises [OverflowError]
    where this conversion reaches infinity. *)
Definition Z2F (z : Z) : float :=
  SF2Prim (binary_normalize prec emax z 0 false).

(** A decimal literal [n/10^k] denotes the binary64 nearest to it; the
    correctly rounded quotient of the (exactly represented) numerator and
    denominator is that number. *)
Definition Q2F (q : Q) : float :=
  (Z2F (Qnum q) / Z2F (Zpos (Qden q)))%float.

#[export] Instance binary64 : FloatArith float := {
  fadd := PrimFloat.add;
  fsub := PrimFloat.sub;
  fmul := PrimFloat.mul;
  fabs := PrimFloat.abs;
  fltb := PrimFloat.ltb;
  float_of_int := Z2F;
  float_lit := Q2F
}.

Definition Qltb (a b : Q) : bool :=
  match Qcompare a b with Lt => true | _ => false end.

#[export] Instance exact : FloatArith Q := {
  fadd := Qplus;
  fsub := Qminus;
  fmul := Qmult;
  fabs := Qabs;
  fltb := Qltb;
  float_of_int := inject_Z;
  float_lit := fun q => q
}.

(** A Python number as it occurs in the candidate lists: the lists mix [int]
    and [float] literals, and [min] returns the list element itself. *)
Inductive pynum (F : Type) : Type :=
| PyInt (z : Z)
| PyFloat (f : F).
Arguments PyInt {F} z.
Arguments PyFloat {F} f.

Definition to_float {F} `{FloatArith F} (x : pynum F) : F :=
  match x with
  | PyInt z => float_of_int z
  | PyFloat f => f
  end.

(* ================================================================== *)
(** * Exceptions *)

(** The Python exceptions that the module's code can raise.  [LibraryError]
    stands for an exception raised inside matplotlib, whatever its class:
    it is kept apart from the errors the module and the interpreter raise
    themselves. *)
Inductive exn : Type :=
| ValueError (msg : string)
| AttributeError (msg : string)
| TypeError (msg : string)
| IndexError (msg : string)
| InvalidOperation (msg : string)
| LibraryError (what : string).

Inductive result (A : Type) : Type :=
| Ok (a : A)
| Raise (e : exn).
Arguments Ok {A} a.
Arguments Raise {A} e.

(* ================================================================== *)
(** * The builtin [min(iterable, key=...)] *)

(** CPython keeps the first item and replaces it by a later one only when the
    later key is strictly smaller ([Py_LT]).  [None] stands for the
    [ValueError] raised on an empty sequence. *)
Section PyMin.
Context {A K : Type}.
Variable lt : K -> K -> bool.
Variable key : A -> K.

Fixpoint py_min_from (best : A) (rest : list A) : A :=
  match rest with
  | [] => best
  | x :: rest' =>
      if lt (key x) (key best) then py_min_from x rest'
      else py_min_from best rest'
  end.

Definition py_min (l : list A) : option A :=
  match l with
  | [] => None
  | x :: rest => Some (py_min_from x rest)
  end.
End PyMin.

(* ================================================================== *)
(** * The builtin [str] on numbers *)

Definition N_to_string (n : N) : string := NilEmpty.string_of_uint (N.to_uint n).

Definition Z_to_string (z : Z) : string :=
  match z with
  | Zneg p => "-" ++ N_to_string (Npos p)
  | _ => N_to_string (Z.to_N z)
  end.

Fixpoint zeros (n : nat) : string :=
  match n with O => "" | S n' => String "0" (zeros n') end.

Definition pow10 (k : Z) : Q := Qpower (10#1) k.

(** The value [m * 2^e]. *)
Definition dyadic (m : Z) (e : Z) : Q := inject_Z m * Qpower (2#1) e.

(** A decimal reads back as the binary64 of mantissa [m] and exponent [e]
    when it lies in that float's rounding interval: between the midpoints to
    the two neighbouring floats, the midpoints included when [m] is even. *)
Definition reads_back (m : positive) (e : Z) (x : Q) : bool :=
  let hi := dyadic (2 * Zpos m + 1) (e - 1) in
  let lo := if (Zpos m =? 2 ^ 52)%Z && (-1074 <? e)%Z
            then dyadic (4 * Zpos m - 1) (e - 2)
            else dyadic (2 * Zpos m - 1) (e - 1) in
  if Z.even (Zpos m)
  then Qle_bool lo x && Qle_bool x hi
  else negb (Qle_bool x lo) && negb (Qle_bool hi x).

(** The [j] with [10^j <= v < 10^(j+1)], searched upwards from a lower
    estimate [j]. *)
Fixpoint decimal_exponent (fuel : nat) (v : Q) (j : Z) : Z :=
  match fuel with
  | O => j
  | S fuel' =>
      if Qle_bool (pow10 (j + 1)) v then decimal_exponent fuel' v (j + 1) else j
  end.

(** The shortest decimal [d * 10^k] that reads back as the float, and among
    those of that length the one nearest to the float's value: [n] significant
    digits are tried for [n = 1, 2, ..., 17]. *)
Fixpoint shortest_decimal (fuel : nat) (m : positive) (e : Z) (j : Z) (n : Z) : Z * Z :=
  let v := dyadic (Zpos m) e in
  let k := (j - n + 1)%Z in
  let d_low := Qfloor (v / pow10 k) in
  let d_high := (d_low + 1)%Z in
  let x_low := inject_Z d_low * pow10 k in
  let x_high := inject_Z d_high * pow10 k in
  match fuel with
  | O => (d_low, k)
  | S fuel' =>
      match reads_back m e x_low, reads_back m e x_high with
      | true, true =>
          match Qcompare (v - x_low) (x_high - v) with
          | Lt => (d_low, k)
          | Gt => (d_high, k)
          | Eq => if Z.even d_low then (d_low, k) else (d_high, k)
          end
      | true, false => (d_low, k)
      | false, true => (d_high, k)
      | false, false => shortest_decimal fuel' m e j (n + 1)
      end
  end.

Fixpoint strip_zeros (fuel : nat) (d k : Z) : Z * Z :=
  match fuel with
  | O => (d, k)
  | S fuel' =>
      if (d mod 10 =? 0)%Z && negb (d =? 0)%Z
      then strip_zeros fuel' (d / 10)%Z (k + 1)%Z
      else (d, k)
  end.

(** The digits of the shortest representation and the position [decpt] of
    the decimal point: the value reads [0.digits * 10^decpt].  The search for
    the decimal exponent starts just below [log10 (2^(e + log2 m))]. *)
Definition float_digits (m : positive) (e : Z) : string * Z :=
  let j0 := ((e + Z.log2 (Zpos m)) * 30103 / 100000 - 1)%Z in
  let j := decimal_exponent 4 (dyadic (Zpos m) e) j0 in
  let (d, k) := shortest_decimal 17 m e j 1 in
  let (d, k) := strip_zeros 20 d k in
  let digits := Z_to_string d in
  (digits, (k + Z.of_nat (String.length digits))%Z).

(** [repr] of a finite non-zero magnitude: exponent notation when
    [decpt <= -4] or [decpt > 16], else positional notation, with [.0] added
    to an integer. *)
Definition format_repr (digits : string) (decpt : Z) : string :=
  let ndigits := Z.of_nat (String.length digits) in
  if (decpt <=? -4)%Z || (16 <? decpt)%Z then
    let x := (decpt - 1)%Z in
    let mant := match digits with
                | String c EmptyString => String c EmptyString
                | String c rest => String c ("." ++ rest)
                | EmptyString => EmptyString
                end in
    mant ++ "e" ++ (if (x <? 0)%Z then "-" else "+")
         ++ (if (Z.abs x <? 10)%Z then "0" else "") ++ N_to_string (Z.to_N (Z.abs x))
  else if (decpt <=? 0)%Z then
    "0." ++ zeros (Z.to_nat (- decpt)) ++ digits
  else if (ndigits <=? decpt)%Z then
    digits ++ zeros (Z.to_nat (decpt - ndigits)) ++ ".0"
  else
    substring 0 (Z.to_nat decpt) digits ++ "." ++
    substring (Z.to_nat decpt) (Z.to_nat (ndigits - decpt)) digits.

(** [float.__repr__], which [str] of a float is. *)
Definition float_repr (f : float) : string :=
  match Prim2SF f with
  | S754_nan => "nan"
  | S754_infinity s => if s then "-inf" else "inf"
  | S754_zero s => if s then "-0.0" else "0.0"
  | S754_finite s m e =>
      let (digits, decpt) := float_digits m e in
      (if s then "-" else "") ++ format_repr digits decpt
  end.

Definition py_str (x : pynum float) : string :=
  match x with
  | PyInt z => Z_to_string z
  | PyFloat f => float_repr f
  end.

(* ================================================================== *)
(** * [decimal.Decimal] under the default context *)

Module Decimal.

(** A finite decimal is [(-1)^sign * coef * 10^exp]. *)
Inductive t : Type :=
| Finite (sign : bool) (coef : N) (exp : Z)
| Infinity (sign : bool)
| NaN (sign : bool).

(** The default context: 28 digits, [ROUND_HALF_EVEN]. *)
Definition prec : Z := 28.

Definition ndigits (c : N) : Z := Z.of_nat (String.length (N_to_string c)).

Definition parse_digits (s : string) : option N :=
  option_map N.of_uint (NilEmpty.uint_of_string s).

Definition parse_exponent (s : string) : option Z :=
  match s with
  | EmptyString => None
  | String "-" r =>
      match r with
      | EmptyString => None
      | _ => option_map (fun n => (- Z.of_N n)%Z) (parse_digits r)
      end
  | String "+" r =>
      match r with
      | EmptyString => None
      | _ => option_map Z.of_N (parse_digits r)
      end
  | _ => option_map Z.of_N (parse_digits s)
  end.

Definition split_at (sep : string) (s : string) : string * option string :=
  match index 0 sep s with
  | Some i => (substring 0 i s, Some (substring (S i) (String.length s - S i) s))
  | None => (s, None)
  end.

(** [Decimal(s)] for the numeric strings that [str] of a number produces:
    sign, digits with an optional point, optional exponent; [inf], [nan]. *)
Definition of_string (s : string) : result t :=
  let err := Raise (InvalidOperation "[<class 'decimal.ConversionSyntax'>]") in
  let (sign, body) :=
    match s with
    | String "-" r => (true, r)
    | String "+" r => (false, r)
    | _ => (false, s)
    end in
  if (body =? "inf") || (body =? "Infinity") then Ok (Infinity sign)
  else if (body =? "nan") || (body =? "NaN") then Ok (NaN sign)
  else
    let (mant, expo) :=
      match split_at "e" body with
      | (m, Some x) => (m, Some x)
      | (_, None) => split_at "E" body
      end in
    let (intpart, fracpart) :=
      match split_at "." mant with
      | (i, Some f) => (i, f)
      | (i, None) => (i, "")
      end in
    match intpart ++ fracpart with
    | "" => err
    | ds =>
        match parse_digits ds,
              (match expo with None => Some 0%Z | Some x => parse_exponent x end) with
        | Some c, Some e => Ok (Finite sign c (e - Z.of_nat (String.length fracpart)))
        | _, _ => err
        end
    end.

(** [c / 10^k] rounded half to even. *)
Definition round_half_even (c : N) (k : Z) : N :=
  let p := Z.to_N (10 ^ k) in
  let q := (c / p)%N in
  let r := (c mod p)%N in
  match (2 * r ?= p)%N with
  | Lt => q
  | Gt => (q + 1)%N
  | Eq => if N.even q then q else (q + 1)%N
  end.

(** [_rescale(target, ROUND_HALF_EVEN)]. *)
Definition rescale (s : bool) (c : N) (e : Z) (target : Z) : t :=
  if (c =? 0)%N then Finite s 0 target
  else if (target <=? e)%Z then Finite s (c * Z.to_N (10 ^ (e - target))) target
  else Finite s (round_half_even c (target - e)) target.

(** [d.to_integral()]. *)
Definition to_integral (d : t) : t :=
  match d with
  | Finite s c e => if (0 <=? e)%Z then d else rescale s c e 0
  | _ => d
  end.

(** [a == b]: numeric equality; a NaN equals nothing. *)
Definition eqb (a b : t) : bool :=
  match a, b with
  | Finite s1 c1 e1, Finite s2 c2 e2 =>
      if (c1 =? 0)%N && (c2 =? 0)%N then true
      else Bool.eqb s1 s2 &&
           let e := Z.min e1 e2 in
           (c1 * Z.to_N (10 ^ (e1 - e)) =? c2 * Z.to_N (10 ^ (e2 - e)))%N
  | Infinity s1, Infinity s2 => Bool.eqb s1 s2
  | _, _ => false
  end.

(** [_fix]: rounding to the context precision.  The exponent limits of the
    context (999999 in magnitude) are out of reach of the strings [str] produces. *)
Definition fix_ (d : t) : t :=
  match d with
  | Finite s c e =>
      let nd := ndigits c in
      if (prec <? nd)%Z then
        let c' := round_half_even c (nd - prec) in
        if (prec <? ndigits c')%Z then Finite s (c' / 10) (e + (nd - prec) + 1)
        else Finite s c' (e + (nd - prec))
      else d
  | _ => d
  end.

(** The text of the [InvalidOperation] that the C implementation of the
    module raises: the list of the signals of the operation. *)
Definition invalid_operation : string := "[<class 'decimal.InvalidOperation'>]".

(** [d.quantize(exp)]. *)
Definition quantize (d exp : t) : result t :=
  match d, exp with
  | NaN _, _ => Ok d
  | _, NaN _ => Ok exp
  | Infinity _, Infinity _ => Ok d
  | Infinity _, Finite _ _ _ | Finite _ _ _, Infinity _ =>
      Raise (InvalidOperation invalid_operation)
  | Finite s c e, Finite _ _ target =>
      if (c =? 0)%N then Ok (Finite s 0 target)
      else if (prec <? ndigits c + e - target)%Z then
        Raise (InvalidOperation invalid_operation)
      else
        match rescale s c e target with
        | Finite s' c' e' =>
            if (prec <? ndigits c')%Z then
              Raise (InvalidOperation invalid_operation)
            else Ok (Finite s' c' e')
        | other => Ok other
        end
  end.

Fixpoint strip (fuel : nat) (c : N) (e : Z) : N * Z :=
  match fuel with
  | O => (c, e)
  | S fuel' =>
      if (c mod 10 =? 0)%N then strip fuel' (c / 10)%N (e + 1)%Z else (c, e)
  end.

(** [d.normalize()]: trailing zeros of the coefficient removed. *)
Definition normalize (d : t) : t :=
  match fix_ d with
  | Finite s c e =>
      if (c =? 0)%N then Finite s 0 0
      else let (c', e') := strip (Z.to_nat (ndigits c)) c e in Finite s c' e'
  | other => other
  end.

(** [str(d)], which is also [format(d, '')] as an f-string applies it. *)
Definition to_string (d : t) : string :=
  match d with
  | Infinity s => (if s then "-" else "") ++ "Infinity"
  | NaN s => (if s then "-" else "") ++ "NaN"
  | Finite s c e =>
      let digits := N_to_string c in
      let len := Z.of_nat (String.length digits) in
      let leftdigits := (e + len)%Z in
      let dotplace :=
        if (e <=? 0)%Z && (-6 <? leftdigits)%Z then leftdigits else 1%Z in
      let body :=
        if (dotplace <=? 0)%Z then "0." ++ zeros (Z.to_nat (- dotplace)) ++ digits
        else if (len <=? dotplace)%Z then digits ++ zeros (Z.to_nat (dotplace - len))
        else substring 0 (Z.to_nat dotplace) digits ++ "." ++
             substring (Z.to_nat dotplace) (Z.to_nat (len - dotplace)) digits in
      let expo :=
        if (leftdigits =? dotplace)%Z then ""
        else let x := (leftdigits - dotplace)%Z in
             "E" ++ (if (x <? 0)%Z then "-" else "+") ++ N_to_string (Z.to_N (Z.abs x)) in
      (if s then "-" else "") ++ body ++ expo
  end.
End Decimal.

(** [format_float(f)]. *)
Definition format_float (f : pynum float) : result Decimal.t :=
  match Decimal.of_string (py_str f) with
  | Raise e => Raise e
  | Ok d =>
      if Decimal.eqb d (Decimal.to_integral d)
      then Decimal.quantize d (Decimal.Finite false 1 0)
      else Ok (Decimal.normalize d)
  end.

(* ================================================================== *)
(** * Matplotlib objects *)

(** A line drawn by [axis.plot]; [None] is an argument left to its default. *)
Record Line (F : Type) : Type := mkLine {
  line_x : list F;
  line_y : list F;
  line_color : string;
  line_alpha : option F;
  line_width : option F;
  line_clip_on : bool
}.

(** A text artist created by [axis.text]. *)
Record Text (F : Type) : Type := mkText {
  text_pos : F * F;
  text_str : string;
  text_ha : string;
  text_va : string;
  text_fontsize : F
}.

(** The part of a matplotlib axes object that the module reads or writes. *)
Record Axes (F : Type) : Type := mkAxes {
  get_xlim : F * F;
  get_ylim : F * F;
  ax_lines : list (Line F);
  ax_texts : list (Text F);
  ax_spines_visible : bool;
  ax_xticks : option (list F);
  ax_yticks : option (list F);
  ax_xlabel : option (string * F);
  ax_ylabel : option (string * F);
  ax_figure : nat
}.

(** A bounding box in data coordinates. *)
Record BBox : Type := mkBBox {
  bb_x0 : float;
  bb_y0 : float;
  bb_x1 : float;
  bb_y1 : float
}.

Definition bb_width (b : BBox) : float := (bb_x1 b - bb_x0 b)%float.
Definition bb_height (b : BBox) : float := (bb_y1 b - bb_y0 b)%float.

Record Figure : Type := mkFigure {
  fig_size : float * float;
  fig_suptitle : option (string * float);
  fig_tight_layout : bool
}.

(** The objects matplotlib holds: every identifier names an axes object and
    a figure; [next_axes] and [next_figure] are the next fresh ones. *)
Record World : Type := mkWorld {
  axes_of : nat -> Axes float;
  figure_of : nat -> Figure;
  next_axes : nat;
  next_figure : nat
}.

(** The values an [axis] variable of the module can hold. *)
Inductive pyobj : Type :=
| PyNone
| AxesObj (a : nat)
| PyListOf (l : list nat)
| NdArrayOf (l : list nat).

(** A data series: a numpy array, or a plain Python list. *)
Inductive series : Type :=
| NdArray (l : list float)
| PyList (l : list float).

Definition series_values (s : series) : list float :=
  match s with NdArray l | PyList l => l end.

(** A plotting style; the fields are the attributes the module reads. *)
Record Style : Type := mkStyle {
  scale_bars : bool;
  show_spines : bool;
  shared_axis : bool;
  title_fontsize : float;
  label_fontsize : float;
  scale_bars_fontsize : float;
  linewidth : float;
  voltage_color : string;
  voltage_alpha : float;
  current_color : string;
  current_alpha : float
}.

(** The [style] argument: a name, or a style object. *)
Inductive style_arg : Type :=
| StyleName (name : string)
| StyleObj (st : Style).

(** The outcome of a call into matplotlib: the value it returns, or the
    exception raised inside the library. *)
Inductive outcome (A : Type) : Type :=
| Returns (a : A)
| Fails (what : string).
Arguments Returns {A} a.
Arguments Fails {A} what.

(** What matplotlib decides:
    - [subplots nrows figsize]: whether [plt.subplots(nrows, 1, figsize=...)]
      creates the figure (it refuses a size that is not positive and finite);
    - [plot l]: whether [Axes.plot] accepts the line (it refuses x and y of
      different lengths, and a colour it does not know);
    - [set_lim lo hi]: the view limits that [set_xlim(lo, hi)] or
      [set_ylim(lo, hi)] stores (limits too close to each other are
      widened), or its refusal (of a NaN or an infinity);
    - [window_extent w text]: the extent of a text artist, in data
      coordinates, once the figure has been drawn in the world [w], or the
      failure of the drawing. *)
Record Matplotlib : Type := mkMatplotlib {
  subplots : Z -> float * float -> outcome unit;
  plot : Line float -> outcome unit;
  set_lim : float -> float -> outcome (float * float);
  window_extent : World -> nat * nat -> outcome BBox
}.

(* ================================================================== *)
(** * Computations with state and exceptions *)

(** A computation reads and updates the world and returns or raises; the
    world at the point of a raise is kept, as Python keeps what was drawn. *)
Definition M (A : Type) : Type := World -> result A * World.

Definition ret {A} (a : A) : M A := fun w => (Ok a, w).

Definition raise {A} (e : exn) : M A := fun w => (Raise e, w).

Definition bind {A B} (m : M A) (k : A -> M B) : M B :=
  fun w =>
    match m w with
    | (Ok a, w') => k a w'
    | (Raise e, w') => (Raise e, w')
    end.

Definition lift {A} (r : result A) : M A := fun w => (r, w).

(** A call whose outcome matplotlib decides; the world is as it was when the
    call raises. *)
Definition call {A} (o : outcome A) : M A :=
  fun w => match o with
           | Returns a => (Ok a, w)
           | Fails what => (Raise (LibraryError what), w)
           end.

Declare Scope py_scope.
Delimit Scope py_scope with py.
Notation "x <- c ;; k" := (bind c (fun x => k))
  (at level 61, c at next level, right associativity) : py_scope.
Notation "' p <- c ;; k" := (bind c (fun x => match x with p => k end))
  (at level 61, p pattern, c at next level, right associativity) : py_scope.
Notation "c ;; k" := (bind c (fun _ => k))
  (at level 61, right associativity) : py_scope.
Open Scope py_scope.

Definition get_world : M World := fun w => (Ok w, w).

Definition get_axes (a : nat) : M (Axes float) := fun w => (Ok (axes_of w a), w).

Definition update {A} (f : nat -> A) (i : nat) (v : A) : nat -> A :=
  fun j => if Nat.eqb j i then v else f j.

Definition set_axes (a : nat) (ax : Axes float) : M unit :=
  fun w => (Ok tt, mkWorld (update (axes_of w) a ax) (figure_of w) (next_axes w) (next_figure w)).

Definition modify_axes (a : nat) (f : Axes float -> Axes float) : M unit :=
  ax <- get_axes a ;; set_axes a (f ax).

Definition modify_figure (g : nat) (f : Figure -> Figure) : M unit :=
  fun w => (Ok tt, mkWorld (axes_of w) (update (figure_of w) g (f (figure_of w g)))
                           (next_axes w) (next_figure w)).

(** ** Attribute lookup, [len], subscripts and truth of an [axis] value *)

Definition type_name (o : pyobj) : string :=
  match o with
  | PyNone => "NoneType"
  | AxesObj _ => "Axes"
  | PyListOf _ => "list"
  | NdArrayOf _ => "numpy.ndarray"
  end.

Definition no_attribute {A} (o : pyobj) (attr : string) : M A :=
  raise (AttributeError ("'" ++ type_name o ++ "' object has no attribute '" ++ attr ++ "'")).

(** The receiver of a call of an axes method [attr]. *)
Definition as_axes (attr : string) (o : pyobj) : M nat :=
  match o with
  | AxesObj a => ret a
  | _ => no_attribute o attr
  end.

Definition py_len (o : pyobj) : M Z :=
  match o with
  | PyListOf l | NdArrayOf l => ret (Z.of_nat (List.length l))
  | _ => raise (TypeError ("object of type '" ++ type_name o ++ "' has no len()"))
  end.

(** numpy's message for an index outside an array of [size] items. *)
Definition ndarray_index_message (i : Z) (size : nat) : string :=
  "index " ++ Z_to_string i ++ " is out of bounds for axis 0 with size "
  ++ Z_to_string (Z.of_nat size).

(** [l[i]] with Python's negative indices. *)
Definition list_getitem {A} (l : list A) (i : Z) : option A :=
  let n := Z.of_nat (List.length l) in
  if (0 <=? i)%Z then nth_error l (Z.to_nat i)
  else if (0 <=? n + i)%Z then nth_error l (Z.to_nat (n + i))
  else None.

Definition py_getitem (o : pyobj) (i : Z) : M pyobj :=
  match o with
  | PyListOf l =>
      match list_getitem l i with
      | Some a => ret (AxesObj a)
      | None => raise (IndexError "list index out of range")
      end
  | NdArrayOf l =>
      match list_getitem l i with
      | Some a => ret (AxesObj a)
      | None => raise (IndexError (ndarray_index_message i (List.length l)))
      end
  | _ => raise (TypeError ("'" ++ type_name o ++ "' object is not subscriptable"))
  end.

(** The truth value of an object in an [if]. *)
Definition py_truth (o : pyobj) : M bool :=
  match o with
  | PyNone => ret false
  | AxesObj _ => ret true
  | PyListOf l => ret (negb (Nat.eqb (List.length l) 0))
  | NdArrayOf [] => ret false
  | NdArrayOf [_] => ret true
  | NdArrayOf _ =>
      raise (ValueError "The truth value of an array with more than one element is ambiguous. Use a.any() or a.all()")
  end.

(** ** Series *)

Definition series_getitem (s : series) (i : Z) : M float :=
  match list_getitem (series_values s) i with
  | Some x => ret x
  | None =>
      raise (IndexError (match s with
                         | NdArray l => ndarray_index_message i (List.length l)
                         | PyList _ => "list index out of range"
                         end))
  end.

(** [numpy.minimum] and [numpy.maximum]: a NaN operand is returned. *)
Definition np_minimum (a b : float) : float :=
  if is_nan a then a else if is_nan b then b else if (b <? a)%float then b else a.

Definition np_maximum (a b : float) : float :=
  if is_nan a then a else if is_nan b then b else if (a <? b)%float then b else a.

Definition series_min (s : series) : M float :=
  match s with
  | PyList _ => raise (AttributeError "'list' object has no attribute 'min'")
  | NdArray [] =>
      raise (ValueError "zero-size array to reduction operation minimum which has no identity")
  | NdArray (x :: l) => ret (fold_left np_minimum l x)
  end.

Definition series_max (s : series) : M float :=
  match s with
  | PyList _ => raise (AttributeError "'list' object has no attribute 'max'")
  | NdArray [] =>
      raise (ValueError "zero-size array to reduction operation maximum which has no identity")
  | NdArray (x :: l) => ret (fold_left np_maximum l x)
  end.

(** ** Calls into matplotlib

    A call on an axes object is recorded in the world when matplotlib
    accepts it; [mpl] tells whether it does. *)

Definition new_axes (fig : nat) (xl yl : float * float) : Axes float :=
  mkAxes xl yl [] [] true None None None None fig.

Definition default_limits : float * float := (0, 1)%float.

Definition alloc_axes (ax : Axes float) : M nat :=
  fun w => (Ok (next_axes w),
            mkWorld (update (axes_of w) (next_axes w) ax) (figure_of w)
                    (S (next_axes w)) (next_figure w)).

Definition alloc_figure (f : Figure) : M nat :=
  fun w => (Ok (next_figure w),
            mkWorld (axes_of w) (update (figure_of w) (next_figure w) f)
                    (next_axes w) (S (next_figure w))).

Fixpoint alloc_n_axes (n : nat) (fig : nat) : M (list nat) :=
  match n with
  | O => ret []
  | S n' =>
      a <- alloc_axes (new_axes fig default_limits default_limits) ;;
      rest <- alloc_n_axes n' fig ;;
      ret (a :: rest)
  end.

(** [plt.subplots(nrows, 1, figsize=figsize)]: a new figure with [nrows]
    axes, returned as one axes object when [nrows = 1] and as an array
    otherwise. *)
Definition plt_subplots (mpl : Matplotlib) (nrows : Z) (figsize : float * float)
    : M (nat * pyobj) :=
  if (nrows <=? 0)%Z then
    raise (ValueError "Number of rows must be a positive integer")
  else
    call (subplots mpl nrows figsize) ;;
    fig <- alloc_figure (mkFigure figsize None false) ;;
    l <- alloc_n_axes (Z.to_nat nrows) fig ;;
    match l with
    | [a] => ret (fig, AxesObj a)
    | _ => ret (fig, NdArrayOf l)
    end.

Definition ax_get_figure (o : pyobj) : M nat :=
  a <- as_axes "get_figure" o ;;
  ax <- get_axes a ;;
  ret (ax_figure ax).

(** [axis.twinx()]: a new axes on the same figure, sharing the x axis. *)
Definition ax_twinx (o : pyobj) : M pyobj :=
  a <- as_axes "twinx" o ;;
  ax <- get_axes a ;;
  b <- alloc_axes (new_axes (ax_figure ax) (get_xlim ax) default_limits) ;;
  ret (AxesObj b).

Definition add_line (l : Line float) (ax : Axes float) : Axes float :=
  mkAxes (get_xlim ax) (get_ylim ax) (ax_lines ax ++ [l]) (ax_texts ax)
         (ax_spines_visible ax) (ax_xticks ax) (ax_yticks ax)
         (ax_xlabel ax) (ax_ylabel ax) (ax_figure ax).

Definition ax_plot (mpl : Matplotlib) (o : pyobj) (l : Line float) : M unit :=
  a <- as_axes "plot" o ;;
  call (plot mpl l) ;;
  modify_axes a (add_line l).

Definition with_texts (ts : list (Text float)) (ax : Axes float) : Axes float :=
  mkAxes (get_xlim ax) (get_ylim ax) (ax_lines ax) ts
         (ax_spines_visible ax) (ax_xticks ax) (ax_yticks ax)
         (ax_xlabel ax) (ax_ylabel ax) (ax_figure ax).

(** [axis.text(...)]: the new text artist is named by its axes and its rank
    among the texts of that axes. *)
Definition ax_text (o : pyobj) (t : Text float) : M (nat * nat) :=
  a <- as_axes "text" o ;;
  ax <- get_axes a ;;
  set_axes a (with_texts (ax_texts ax ++ [t]) ax) ;;
  ret (a, List.length (ax_texts ax)).

Fixpoint list_update {A} (l : list A) (i : nat) (f : A -> A) : list A :=
  match l, i with
  | [], _ => []
  | x :: l', O => f x :: l'
  | x :: l', S i' => x :: list_update l' i' f
  end.

Definition move_text (p : float * float) (t : Text float) : Text float :=
  mkText p (text_str t) (text_ha t) (text_va t) (text_fontsize t).

(** [text.set_position(p)]. *)
Definition text_set_position (t : nat * nat) (p : float * float) : M unit :=
  modify_axes (fst t)
    (fun ax => with_texts (list_update (ax_texts ax) (snd t) (move_text p)) ax).

Definition ax_set_xlim (mpl : Matplotlib) (o : pyobj) (lo hi : float) : M unit :=
  a <- as_axes "set_xlim" o ;;
  lim <- call (set_lim mpl lo hi) ;;
  modify_axes a (fun ax =>
    mkAxes lim (get_ylim ax) (ax_lines ax) (ax_texts ax)
           (ax_spines_visible ax) (ax_xticks ax) (ax_yticks ax)
           (ax_xlabel ax) (ax_ylabel ax) (ax_figure ax)).

Definition ax_set_ylim (mpl : Matplotlib) (o : pyobj) (lo hi : float) : M unit :=
  a <- as_axes "set_ylim" o ;;
  lim <- call (set_lim mpl lo hi) ;;
  modify_axes a (fun ax =>
    mkAxes (get_xlim ax) lim (ax_lines ax) (ax_texts ax)
           (ax_spines_visible ax) (ax_xticks ax) (ax_yticks ax)
           (ax_xlabel ax) (ax_ylabel ax) (ax_figure ax)).

Definition ax_set_xlabel (o : pyobj) (s : string) (fontsize : float) : M unit :=
  a <- as_axes "set_xlabel" o ;;
  modify_axes a (fun ax =>
    mkAxes (get_xlim ax) (get_ylim ax) (ax_lines ax) (ax_texts ax)
           (ax_spines_visible ax) (ax_xticks ax) (ax_yticks ax)
           (Some (s, fontsize)) (ax_ylabel ax) (ax_figure ax)).

Definition ax_set_ylabel (o : pyobj) (s : string) (fontsize : float) : M unit :=
  a <- as_axes "set_ylabel" o ;;
  modify_axes a (fun ax =>
    mkAxes (get_xlim ax) (get_ylim ax) (ax_lines ax) (ax_texts ax)
           (ax_spines_visible ax) (ax_xticks ax) (ax_yticks ax)
           (ax_xlabel ax) (Some (s, fontsize)) (ax_figure ax)).

Definition fig_set_suptitle (g : nat) (s : string) (fontsize : float) : M unit :=
  modify_figure g (fun f => mkFigure (fig_size f) (Some (s, fontsize)) (fig_tight_layout f)).

Definition fig_set_tight_layout (g : nat) : M unit :=
  modify_figure g (fun f => mkFigure (fig_size f) (fig_suptitle f) true).

(* ================================================================== *)
(** * Scale-bar length and position *)

Section ScaleBar.
Context {F : Type} `{FloatArith F}.

Definition valid_time_bar_length : list (pynum F) :=
  [PyFloat (float_lit 0.1); PyFloat (float_lit 0.5); PyInt 1; PyInt 2;
   PyInt 5; PyInt 10; PyInt 20; PyInt 50; PyInt 100; PyInt 200; PyInt 500;
   PyInt 1000; PyInt 2000; PyInt 5000].

Definition valid_voltage_bar_length : list (pynum F) :=
  [PyFloat (float_lit 0.1); PyFloat (float_lit 0.5); PyInt 1; PyInt 2;
   PyInt 5; PyInt 10; PyInt 20; PyInt 50; PyInt 100].

Definition valid_current_bar_length : list (pynum F) :=
  [PyFloat (float_lit 0.001); PyFloat (float_lit 0.005);
   PyFloat (float_lit 0.01); PyFloat (float_lit 0.05);
   PyFloat (float_lit 0.1); PyFloat (float_lit 0.5); PyInt 1; PyInt 5;
   PyInt 10; PyInt 50].

(** The key [lambda x: abs(x - target_length)]. *)
Definition distance_to (target_length : F) (x : pynum F) : F :=
  fabs (fsub (to_float x) target_length).

(** [compute_scale_bar_length(axis, is_current, bar_length)]; [None] is the
    [ValueError] of [min] on an empty sequence. *)
Definition compute_scale_bar_length (axis : Axes F) (is_current : bool)
    (bar_length : F) : option (pynum F * pynum F) :=
  let time_limit := get_xlim axis in
  let target_length := fmul bar_length (fsub (snd time_limit) (fst time_limit)) in
  match py_min fltb (distance_to target_length) valid_time_bar_length with
  | None => None
  | Some time_bar_length =>
      let IV_limit := get_ylim axis in
      let target_length := fmul bar_length (fsub (snd IV_limit) (fst IV_limit)) in
      match
        (if is_current
         then py_min fltb (distance_to target_length) valid_current_bar_length
         else py_min fltb (distance_to target_length) valid_voltage_bar_length)
      with
      | None => None
      | Some IV_bar_length => Some (time_bar_length, IV_bar_length)
      end
  end.

(** [compute_scale_bar_position(axis, time_bar_length, is_current)]. *)
Definition compute_scale_bar_position (axis : Axes F)
    (time_bar_length : pynum F) (is_current : bool) : F * F :=
  let time_limit := get_xlim axis in
  let IV_limit := get_ylim axis in
  let x_pos := fsub (fst time_limit) (fmul (float_lit 1.2) (to_float time_bar_length)) in
  let y_pos :=
    if is_current
    then fadd (fst IV_limit) (fmul (float_lit 0.3) (fsub (snd IV_limit) (fst IV_limit)))
    else fst IV_limit in
  (x_pos, y_pos).
End ScaleBar.

(** The candidate list that [compute_scale_bar_length] uses for the
    dependent quantity. *)
Definition valid_IV_bar_length {F} `{FloatArith F} (is_current : bool) : list (pynum F) :=
  if is_current then valid_current_bar_length else valid_voltage_bar_length.

(** The target lengths that [compute_scale_bar_length] computes. *)
Definition time_target {F} `{FloatArith F} (axis : Axes F) (bar_length : F) : F :=
  fmul bar_length (fsub (snd (get_xlim axis)) (fst (get_xlim axis))).

Definition IV_target {F} `{FloatArith F} (axis : Axes F) (bar_length : F) : F :=
  fmul bar_length (fsub (snd (get_ylim axis)) (fst (get_ylim axis))).

(** An axes object with the given view limits and nothing drawn on it. *)
Definition axes_with_limits {F} (xl yl : F * F) : Axes F :=
  mkAxes xl yl [] [] true None None None None 0.

(* ================================================================== *)
(** * Styles, figure size, plot count *)

(** [get_n_plots(n_voltage_series, n_current_series, shared_axis)]. *)
Definition get_n_plots (n_voltage_series n_current_series : Z) (shared_axis : bool) : Z :=
  if shared_axis || (n_current_series =? 0)%Z
  then n_voltage_series
  else (n_voltage_series + n_current_series)%Z.

(** [compute_figsize(n_plots, title, style)]. *)
Definition compute_figsize (n_plots : Z) (title : option string) (style : Style)
    : float * float :=
  let figsize0 := 6.4%float in
  let figsize1 := (4.8 * Z2F n_plots)%float in
  let figsize0 := if scale_bars style then (figsize0 + 1)%float else figsize0 in
  let figsize1 :=
    match title with
    | Some _ => (figsize1 + 1 * title_fontsize style)%float
    | None => figsize1
    end in
  if show_spines style
  then ((figsize0 + 1)%float, (figsize1 + 1)%float)
  else (figsize0, figsize1).

Definition shape_mismatch_message : string :=
  "The number of axis provided is not the same as the number of series to plot.".

Section Plotting.

(** The presets [ExploreStyle()] and [PaperStyle()] of the [style] module,
    which this module imports. *)
Variables ExploreStyle PaperStyle : Style.

(** What matplotlib decides. *)
Variable mpl : Matplotlib.

(** [define_style(style)]. *)
Definition define_style (style : style_arg) : result Style :=
  match style with
  | StyleName name =>
      if name =? "explore" then Ok ExploreStyle
      else if name =? "paper" then Ok PaperStyle
      else Raise (ValueError ("Unknown style: " ++ name))
  | StyleObj st => Ok st
  end.

(** [get_text_bbox(text, axis, debug)]: the figure is drawn, then the text
    measured. *)
Definition get_text_bbox (text : nat * nat) (axis : pyobj) (debug : bool) : M BBox :=
  _ <- ax_get_figure axis ;;
  w <- get_world ;;
  bb_data <- call (window_extent mpl w text) ;;
  _ <- as_axes "transData" axis ;;
  (if debug then
     ax_plot mpl axis (mkLine [bb_x0 bb_data; bb_x1 bb_data] [bb_y0 bb_data; bb_y0 bb_data]
                          "c0" None None true) ;;
     ax_plot mpl axis (mkLine [bb_x0 bb_data; bb_x1 bb_data] [bb_y1 bb_data; bb_y1 bb_data]
                          "C0" None None true) ;;
     ax_plot mpl axis (mkLine [bb_x0 bb_data; bb_x0 bb_data] [bb_y0 bb_data; bb_y1 bb_data]
                          "C0" None None true) ;;
     ax_plot mpl axis (mkLine [bb_x1 bb_data; bb_x1 bb_data] [bb_y0 bb_data; bb_y1 bb_data]
                          "C0" None None true)
   else ret tt) ;;
  ret bb_data.

(** The calls [compute_scale_bar_length(axis, is_current)] and
    [compute_scale_bar_position(axis, time_bar_length, is_current)] on the
    axes object that [axis] names. *)
Definition call_compute_scale_bar_length (axis : pyobj) (is_current : bool)
    : M (pynum float * pynum float) :=
  a <- as_axes "get_xlim" axis ;;
  ax <- get_axes a ;;
  match compute_scale_bar_length ax is_current 0.15%float with
  | Some lengths => ret lengths
  | None => raise (ValueError "min() arg is an empty sequence")
  end.

Definition call_compute_scale_bar_position (axis : pyobj)
    (time_bar_length : pynum float) (is_current : bool) : M (float * float) :=
  a <- as_axes "get_xlim" axis ;;
  ax <- get_axes a ;;
  ret (compute_scale_bar_position ax time_bar_length is_current).

(** The last block of [draw_scale_bars]: "Move the labels such that they
    do not overlap with the scale bars". *)
Definition move_labels (axis : pyobj) (scale_bar_origin : float * float)
    (time_bar_length IV_bar_length : pynum float)
    (time_label iv_label : nat * nat) : M unit :=
  bb <- get_text_bbox time_label axis false ;;
  let text_height := bb_height bb in
  text_set_position time_label
    ((fst scale_bar_origin + 0.5 * to_float time_bar_length)%float,
     (snd scale_bar_origin - 1.8 * text_height)%float) ;;
  bb <- get_text_bbox iv_label axis false ;;
  let text_length := bb_width bb in
  text_set_position iv_label
    ((fst scale_bar_origin - 1.3 * text_length)%float,
     (snd scale_bar_origin + 0.5 * to_float IV_bar_length)%float).

(** [draw_scale_bars(axis, is_current, style)]. *)
Definition draw_scale_bars (axis : pyobj) (is_current : bool) (style : style_arg)
    : M unit :=
  style <- lift (define_style style) ;;
  ' (time_bar_length, IV_bar_length) <- call_compute_scale_bar_length axis is_current ;;
  scale_bar_origin <- call_compute_scale_bar_position axis time_bar_length is_current ;;
  ax_plot mpl axis
    (mkLine [fst scale_bar_origin; (fst scale_bar_origin + to_float time_bar_length)%float]
            [snd scale_bar_origin; snd scale_bar_origin]
            "black" None (Some (Z2F 1)) false) ;;
  ax_plot mpl axis
    (mkLine [fst scale_bar_origin; fst scale_bar_origin]
            [snd scale_bar_origin; (snd scale_bar_origin + to_float IV_bar_length)%float]
            "black" None (Some (Z2F 1)) false) ;;
  _ <- as_axes "text" axis ;;
  d <- lift (format_float time_bar_length) ;;
  time_label <- ax_text axis
    (mkText scale_bar_origin (Decimal.to_string d ++ " ms") "center" "bottom"
            (scale_bars_fontsize style)) ;;
  iv_label <-
    (if is_current then
       _ <- as_axes "text" axis ;;
       d <- lift (format_float IV_bar_length) ;;
       ax_text axis
         (mkText scale_bar_origin (Decimal.to_string d ++ " nA") "left" "center"
                 (scale_bars_fontsize style))
     else
       _ <- as_axes "text" axis ;;
       d <- lift (format_float IV_bar_length) ;;
       ax_text axis
         (mkText scale_bar_origin (Decimal.to_string d ++ " mV") "left" "center"
                 (scale_bars_fontsize style))) ;;
  move_labels axis scale_bar_origin time_bar_length IV_bar_length time_label iv_label.

(** [hide_spines(axis)]. *)
Definition hide_spines (axis : pyobj) : M unit :=
  a <- as_axes "spines" axis ;;
  modify_axes a (fun ax =>
    mkAxes (get_xlim ax) (get_ylim ax) (ax_lines ax) (ax_texts ax)
           false (Some []) (Some [])
           (ax_xlabel ax) (ax_ylabel ax) (ax_figure ax)).

(** [plot_trace(time_series, voltage_series, current_series, title, axis,
    style)]. *)
Definition plot_trace (time_series voltage_series : series)
    (current_series : option series) (title : option string)
    (axis : pyobj) (style : style_arg) : M (nat * pyobj) :=
  style <- lift (define_style style) ;;
  let n_plots :=
    get_n_plots 1 (match current_series with Some _ => 1 | None => 0 end)
                (shared_axis style) in
  ' (fig, axis) <-
    (match axis with
     | PyNone =>
         let figsize := compute_figsize n_plots title style in
         plt_subplots mpl n_plots figsize
     | _ =>
         n <- py_len axis ;;
         if negb (n =? n_plots)%Z then
           raise (ValueError shape_mismatch_message)
         else
           fig <- (match axis with
                   | PyListOf _ => a0 <- py_getitem axis 0 ;; ax_get_figure a0
                   | _ => ax_get_figure axis
                   end) ;;
           ret (fig, axis)
     end) ;;
  ' (axis_voltage, axis_current) <-
    (match current_series with
     | Some _ =>
         axis_current <- (if shared_axis style then ret axis else py_getitem axis 0) ;;
         axis_voltage <- (if shared_axis style then ax_twinx axis else py_getitem axis (-1)) ;;
         ret (axis_voltage, axis_current)
     | None => ret (axis, PyNone)
     end) ;;
  (match current_series with
   | Some cs =>
       ax_plot mpl axis_current
         (mkLine (series_values time_series) (series_values cs) (current_color style)
                 (Some (current_alpha style)) (Some (linewidth style)) true)
   | None => ret tt
   end) ;;
  ax_plot mpl axis_voltage
    (mkLine (series_values time_series) (series_values voltage_series)
            (voltage_color style) (Some (voltage_alpha style))
            (Some (linewidth style)) true) ;;
  _ <- as_axes "set_xlim" axis_voltage ;;
  t_first <- series_getitem time_series 0 ;;
  t_last <- series_getitem time_series (-1) ;;
  ax_set_xlim mpl axis_voltage t_first t_last ;;
  _ <- as_axes "set_ylim" axis_voltage ;;
  v_min <- series_min voltage_series ;;
  v_max <- series_max voltage_series ;;
  ax_set_ylim mpl axis_voltage v_min v_max ;;
  (match current_series with
   | Some cs =>
       _ <- as_axes "set_xlim" axis_current ;;
       t_first <- series_getitem time_series 0 ;;
       t_last <- series_getitem time_series (-1) ;;
       ax_set_xlim mpl axis_current t_first t_last ;;
       _ <- as_axes "set_ylim" axis_current ;;
       c_min <- series_min cs ;;
       c_max <- series_max cs ;;
       ax_set_ylim mpl axis_current c_min c_max
   | None => ret tt
   end) ;;
  (if negb (show_spines style) then
     hide_spines axis_voltage ;;
     b <- py_truth axis_current ;;
     if b then hide_spines axis_current else ret tt
   else ret tt) ;;
  (if scale_bars style then
     draw_scale_bars axis_voltage false (StyleObj style) ;;
     b <- py_truth axis_current ;;
     if b then draw_scale_bars axis_current true (StyleObj style) else ret tt
   else
     ax_set_xlabel axis_current "Time (ms)" (label_fontsize style) ;;
     ax_set_xlabel axis_voltage "Time (ms)" (label_fontsize style) ;;
     ax_set_ylabel axis_current "Current (nA)" (label_fontsize style) ;;
     ax_set_ylabel axis_voltage "Voltage (mV)" (label_fontsize style)) ;;
  (match title with
   | Some t => fig_set_suptitle fig t (title_fontsize style)
   | None => ret tt
   end) ;;
  fig_set_tight_layout fig ;;
  ret (fig, axis).

End Plotting.

Unset Implicit Arguments.

(* ================================================================== *)
(** * Notions used in the statements *)

(** [increasing le l]: every element is below itself and all later ones. *)
Fixpoint increasing {A} (le : A -> A -> bool) (l : list A) : bool :=
  match l with
  | [] => true
  | x :: rest => forallb (le x) (x :: rest) && increasing le rest
  end.

(** Candidates ordered by value. *)
Definition candidate_leb (a b : pynum float) : bool :=
  (to_float a <=? to_float b)%float.

(** The text of a label for a bar length, when [format_float] returns. *)
Definition label_number (x : pynum float) : option string :=
  match format_float x with
  | Ok d => Some (Decimal.to_string d)
  | Raise _ => None
  end.

(** The texts of an axes object. *)
Definition texts_of (w : World) (a : nat) : list (Text float) := ax_texts (axes_of w a).

(** Two worlds that hold the same objects. *)
Definition same_objects (w w' : World) : Prop :=
  (forall a, axes_of w a = axes_of w' a) /\
  (forall g, figure_of w g = figure_of w' g) /\
  next_axes w = next_axes w' /\ next_figure w = next_figure w'.

(** The number of current series that [plot_trace] passes to [get_n_plots]. *)
Definition n_current_series (current_series : option series) : Z :=
  match current_series with Some _ => 1 | None => 0 end.

(** The axes the caller supplies are a collection of a length other than
    the number of plots that the resolved style requires. *)
Definition wrong_axis_count (ExploreStyle PaperStyle : Style)
    (current_series : option series) (axis : pyobj) (style : style_arg) : Prop :=
  exists st l,
    define_style ExploreStyle PaperStyle style = Ok st /\
    (axis = PyListOf l \/ axis = NdArrayOf l) /\
    Z.of_nat (List.length l)
    <> get_n_plots 1 (n_current_series current_series) (shared_axis st).

(** The error of [plot_trace] on a wrong number of axes. *)
Definition shape_mismatch : exn := ValueError shape_mismatch_message.

(** Computations that do not raise it, and computations that always raise. *)
Definition no_shape_mismatch {A} (m : M A) : Prop :=
  forall w, fst (m w) <> Raise shape_mismatch.

Definition always_raises {A} (m : M A) : Prop :=
  forall w, exists e, fst (m w) = Raise e.

(** [format_float] raises nothing but [InvalidOperation]. *)
Definition not_value_error {A} (r : result A) : Prop :=
  match r with
  | Raise (ValueError _) => False
  | _ => True
  end.

(** Comparison of magnitudes [(e, m)] as [SFcompare] does it. *)
Definition mag_compare (e1 : Z) (m1 : positive) (e2 : Z) (m2 : positive) : comparison :=
  match Z.compare e1 e2 with
  | Lt => Lt
  | Gt => Gt
  | Eq => Pos.compare_cont Eq m1 m2
  end.

(** A world in which nothing has been created yet, a style without scale
    bars, and a matplotlib that accepts every call, stores the limits it is
    given and gives every text the same extent: sample data on which the
    statements are instantiated. *)
Definition blank_world : World :=
  mkWorld (fun _ => new_axes 0 default_limits default_limits)
          (fun _ => mkFigure (6.4, 4.8)%float None false) 0 0.

Definition plain_style : Style :=
  mkStyle false true false 12 10 8 1 "black" 1 "red" 1.

Definition fixed_extent : Matplotlib :=
  mkMatplotlib (fun _ _ => Returns tt) (fun _ => Returns tt)
               (fun lo hi => Returns (lo, hi))
               (fun _ _ => Returns (mkBBox 0 0 2 1)).

(** [returns_only P m]: whenever [m] returns, its value satisfies [P]. *)
Definition returns_only {A} (P : A -> Prop) (m : M A) : Prop :=
  forall w r w', m w = (Ok r, w') -> P r.

(** [keeps_limits m]: whether [m] returns or raises, it leaves the view
    limits of every axes object as they were. *)
Definition keeps_limits {A} (m : M A) : Prop :=
  forall w b,
    get_xlim (axes_of (snd (m w)) b) = get_xlim (axes_of w b) /\
    get_ylim (axes_of (snd (m w)) b) = get_ylim (axes_of w b).

(** The blank world after [draw_scale_bars] has run on its axes 0: the axes
    holds the two bars and the two labels, of ranks 0 and 1. *)
Definition labelled_world : World :=
  snd (draw_scale_bars plain_style plain_style fixed_extent (AxesObj 0) false
         (StyleObj plain_style) blank_world).

(** A two-point trace. *)
Definition sample_time : series := NdArray [0; 1]%float.
Definition sample_voltage : series := NdArray [-70; -60]%float.
Definition sample_current : series := NdArray [0; 0.5]%float.

(* ================================================================== *)
(** * Order facts on binary64 *)

Lemma mag_compare_lt e1 m1 e2 m2 :
  mag_compare e1 m1 e2 m2 = Lt <-> (e1 < e2 \/ (e1 = e2 /\ (m1 < m2)%positive))%Z.
Proof.
  unfold mag_compare. change (Pos.compare_cont Eq m1 m2) with (Pos.compare m1 m2).
  destruct (Z.compare_spec e1 e2); rewrite ?Pos.compare_lt_iff;
    split; intros; try lia; try discriminate; auto.
Qed.

Lemma mag_compare_gt e1 m1 e2 m2 :
  mag_compare e1 m1 e2 m2 = Gt <-> (e2 < e1 \/ (e1 = e2 /\ (m2 < m1)%positive))%Z.
Proof.
  unfold mag_compare. change (Pos.compare_cont Eq m1 m2) with (Pos.compare m1 m2).
  destruct (Z.compare_spec e1 e2); rewrite ?Pos.compare_gt_iff;
    split; intros; try lia; try discriminate; auto.
Qed.

Lemma mag_compare_eq e1 m1 e2 m2 :
  mag_compare e1 m1 e2 m2 = Eq <-> (e1 = e2 /\ m1 = m2).
Proof.
  unfold mag_compare. change (Pos.compare_cont Eq m1 m2) with (Pos.compare m1 m2).
  destruct (Z.compare_spec e1 e2); rewrite ?Pos.compare_eq_iff;
    split; intros; try lia; try discriminate; intuition.
Qed.

Lemma SFcompare_finite s1 m1 e1 s2 m2 e2 :
  SFcompare (S754_finite s1 m1 e1) (S754_finite s2 m2 e2) =
  Some match s1, s2 with
       | true, false => Lt
       | false, true => Gt
       | false, false => mag_compare e1 m1 e2 m2
       | true, true => CompOpp (mag_compare e1 m1 e2 m2)
       end.
Proof.
  unfold mag_compare; simpl.
  destruct s1, s2; try reflexivity; destruct (e1 ?= e2)%Z; reflexivity.
Qed.

Ltac mag_facts :=
  repeat match goal with
  | H : mag_compare _ _ _ _ = Lt |- _ => apply mag_compare_lt in H
  | H : mag_compare _ _ _ _ = Gt |- _ => apply mag_compare_gt in H
  | H : mag_compare _ _ _ _ = Eq |- _ => apply mag_compare_eq in H
  end.

Ltac mag_case e1 m1 e2 m2 :=
  let E := fresh "E" in destruct (mag_compare e1 m1 e2 m2) eqn:E.

Ltac sf_cases x y z :=
  destruct x as [?s|?s| |?s ?m ?e], y as [?s|?s| |?s ?m ?e], z as [?s|?s| |?s ?m ?e];
  rewrite ?SFcompare_finite; simpl;
  repeat match goal with s : bool |- _ => destruct s end; simpl;
  try discriminate; try reflexivity.

Lemma SFltb_trans x y z :
  SFltb x y = true -> SFltb y z = true -> SFltb x z = true.
Proof.
  unfold SFltb. sf_cases x y z;
    match goal with
    | |- context [mag_compare ?e1 ?m1 ?e2 ?m2] =>
        match goal with
        | |- context [mag_compare e2 m2 ?e3 ?m3] =>
            mag_case e1 m1 e2 m2; mag_case e2 m2 e3 m3; mag_case e1 m1 e3 m3
        end
    end; simpl; try discriminate; try reflexivity; mag_facts; intros; lia.
Qed.

Lemma SFltb_irrefl x : SFltb x x = false.
Proof.
  unfold SFltb. destruct x as [s|s| |s m e]; rewrite ?SFcompare_finite; simpl;
    try (destruct s; reflexivity); try reflexivity.
  mag_case e m e m; destruct s; simpl; try reflexivity; mag_facts; lia.
Qed.

Lemma SFeqb_ltb_trans x y z :
  SFeqb x y = true -> SFltb y z = true -> SFltb x z = true.
Proof.
  unfold SFltb, SFeqb. sf_cases x y z;
    match goal with
    | |- context [mag_compare ?e1 ?m1 ?e2 ?m2] =>
        match goal with
        | |- context [mag_compare e2 m2 ?e3 ?m3] =>
            mag_case e1 m1 e2 m2; mag_case e2 m2 e3 m3; mag_case e1 m1 e3 m3
        end
    end; simpl; try discriminate; try reflexivity; mag_facts; intros; lia.
Qed.

Lemma ltb_trans (x y z : float) :
  (x <? y)%float = true -> (y <? z)%float = true -> (x <? z)%float = true.
Proof. rewrite !ltb_spec. apply SFltb_trans. Qed.

Lemma ltb_irrefl (x : float) : (x <? x)%float = false.
Proof. rewrite ltb_spec. apply SFltb_irrefl. Qed.

Lemma eqb_ltb_trans (x y z : float) :
  (x =? y)%float = true -> (y <? z)%float = true -> (x <? z)%float = true.
Proof. rewrite FloatAxioms.eqb_spec, !ltb_spec. apply SFeqb_ltb_trans. Qed.

(* ================================================================== *)
(** * Literals *)

(** The decimal literals of the module denote the binary64 values that the
    kernel's own correctly rounded reading of the same literals gives. *)
Example float_lit_values :
  map (@float_lit float binary64) [0.001; 0.005; 0.01; 0.05; 0.1; 0.3; 0.5; 1.2]%Q
  = [0.001; 0.005; 0.01; 0.05; 0.1; 0.3; 0.5; 1.2]%float.
Proof. reflexivity. Qed.

Example float_of_int_values :
  map (@float_of_int float binary64) [1; 2; 5; 10; 20; 50; 100; 200; 500; 1000; 2000; 5000]%Z
  = [1; 2; 5; 10; 20; 50; 100; 200; 500; 1000; 2000; 5000]%float.
Proof. reflexivity. Qed.

(* ================================================================== *)
(** * Facts on [min] with a key *)

Lemma increasing_from_split {A} (le : A -> A -> bool) (l1 l2 : list A) (r : A) :
  increasing le (l1 ++ r :: l2)%list = true ->
  forall c, In c (r :: l2) -> le r c = true.
Proof.
  induction l1 as [|x l1 IH]; intros Hinc c Hc.
  - cbn [app increasing] in Hinc. apply andb_prop in Hinc as [Hall _].
    rewrite forallb_forall in Hall. auto.
  - cbn [app increasing] in Hinc. apply andb_prop in Hinc as [_ Hrest]. auto.
Qed.

Section PyMinFacts.
Context {A K : Type}.
Variable lt : K -> K -> bool.
Variable key : A -> K.

Lemma py_min_from_In (rest : list A) :
  forall best, In (py_min_from lt key best rest) (best :: rest).
Proof.
  induction rest as [|x rest IH]; intros best; cbn [py_min_from].
  - left; reflexivity.
  - destruct (lt (key x) (key best)).
    + right. apply IH.
    + destruct (IH best) as [E|E]; [left; exact E | right; right; exact E].
Qed.

(** The relation [tie] on keys stands for "equidistant". *)
Variable tie : K -> K -> bool.
Hypothesis lt_trans : forall a b c, lt a b = true -> lt b c = true -> lt a c = true.
Hypothesis lt_irrefl : forall a, lt a a = false.
Hypothesis tie_lt : forall a b c, tie a b = true -> lt b c = true -> lt a c = true.

(** [min] returns the first of the items whose key ties with the key of
    the result: no item before it in the list ties with it. *)
Lemma py_min_from_first (rest : list A) :
  forall best l1 l2,
    (forall p, In p (l1 ++ best :: l2)%list -> lt (key p) (key best) = false) ->
    (forall c, In c l1 -> tie (key c) (key best) = false) ->
    exists l1' l2',
      ((l1 ++ best :: l2) ++ rest = l1' ++ py_min_from lt key best rest :: l2')%list /\
      forall c, In c l1' -> tie (key c) (key (py_min_from lt key best rest)) = false.
Proof.
  induction rest as [|x rest IH]; intros best l1 l2 Hmin Hfirst; cbn [py_min_from].
  - exists l1, l2. rewrite app_nil_r. auto.
  - destruct (lt (key x) (key best)) eqn:Hx.
    + destruct (IH x (l1 ++ best :: l2)%list []) as (l1' & l2' & E & H').
      * intros p Hp. rewrite in_app_iff in Hp. destruct Hp as [Hp|[->|[]]].
        -- destruct (lt (key p) (key x)) eqn:Hpx; [|reflexivity].
           rewrite <- (Hmin p Hp). symmetry. eapply lt_trans; eauto.
        -- apply lt_irrefl.
      * intros c Hc. destruct (tie (key c) (key x)) eqn:Ht; [|reflexivity].
        rewrite <- (Hmin c Hc). symmetry. eapply tie_lt; eauto.
      * exists l1', l2'. split; [|exact H'].
        rewrite <- E. rewrite <- !app_assoc. reflexivity.
    + destruct (IH best l1 (l2 ++ [x])%list) as (l1' & l2' & E & H').
      * intros p Hp. rewrite in_app_iff in Hp. cbn [In] in Hp.
        rewrite in_app_iff in Hp. cbn [In] in Hp.
        destruct Hp as [Hp|[Hp|[Hp|[Hp|[]]]]]; subst;
          try exact Hx; apply Hmin; rewrite in_app_iff; cbn [In]; auto.
      * exact Hfirst.
      * exists l1', l2'. split; [|exact H'].
        rewrite <- E. rewrite <- !app_assoc. cbn [app]. rewrite <- app_assoc. reflexivity.
Qed.

Lemma py_min_first (l : list A) (r : A) :
  py_min lt key l = Some r ->
  exists l1 l2, l = (l1 ++ r :: l2)%list /\ forall c, In c l1 -> tie (key c) (key r) = false.
Proof.
  destruct l as [|x rest]; cbn [py_min]; intros E; [discriminate|].
  injection E as <-.
  destruct (@py_min_from_first rest x [] []) as (l1 & l2 & E & H).
  - intros p [->|[]]. apply lt_irrefl.
  - intros c [].
  - exists l1, l2. split; [exact E | exact H].
Qed.

(** In an increasing list, the result is below every item that ties with
    it. *)
Lemma py_min_smallest_tie (le : A -> A -> bool) (l : list A) (r : A) :
  increasing le l = true ->
  py_min lt key l = Some r ->
  forall c, In c l -> tie (key c) (key r) = true -> le r c = true.
Proof.
  intros Hinc Hr c Hc Ht.
  destruct (@py_min_first l r Hr) as (l1 & l2 & -> & Hfirst).
  rewrite in_app_iff in Hc. destruct Hc as [Hc|Hc].
  - rewrite (Hfirst c Hc) in Ht. discriminate.
  - eapply increasing_from_split; eauto.
Qed.
End PyMinFacts.

(* ================================================================== *)
(** * Scale-bar lengths *)

Lemma compute_scale_bar_length_eq {F} `{FloatArith F} (axis : Axes F) (is_current : bool)
    (bar_length : F) :
  compute_scale_bar_length axis is_current bar_length =
  match py_min fltb (distance_to (time_target axis bar_length)) valid_time_bar_length,
        py_min fltb (distance_to (IV_target axis bar_length)) (valid_IV_bar_length is_current)
  with
  | Some t, Some v => Some (t, v)
  | _, _ => None
  end.
Proof. destruct is_current; reflexivity. Qed.

(** [compute_scale_bar_length] returns, and returns candidates. *)
Lemma compute_scale_bar_length_In :
  forall (F : Type) (PF : FloatArith F) (axis : Axes F) (is_current : bool) (bar_length : F),
  exists t v,
    compute_scale_bar_length axis is_current bar_length = Some (t, v) /\
    In t valid_time_bar_length /\
    In v (valid_IV_bar_length is_current).
Proof.
  intros F PF axis is_current bar_length.
  rewrite compute_scale_bar_length_eq.
  unfold valid_IV_bar_length, valid_time_bar_length, valid_current_bar_length,
    valid_voltage_bar_length.
  cbn [py_min].
  destruct is_current; eexists; eexists; (split; [reflexivity|]);
    split; apply py_min_from_In.
Qed.

(** C1.  Whatever the view limits of the axis and the target fraction, and
    in particular for every range with max > min and every fraction in
    (0, 1], [compute_scale_bar_length] returns, and the time length it
    selects is a member of the time candidates and the dependent length a
    member of the candidate list used (current or voltage).  This holds in
    binary64 and in exact arithmetic alike. *)
Theorem compute_scale_bar_length_member :
  forall (F : Type) (PF : FloatArith F) (axis : Axes F) (is_current : bool) (bar_length : F),
  exists t v,
    compute_scale_bar_length axis is_current bar_length = Some (t, v) /\
    In t valid_time_bar_length /\
    In v (if is_current then valid_current_bar_length else valid_voltage_bar_length).
Proof.
  intros F PF axis is_current bar_length.
  destruct (compute_scale_bar_length_In F PF axis is_current bar_length)
    as (t & v & E & Ht & Hv).
  exists t, v. split; [exact E|]. split; [exact Ht|].
  destruct is_current; exact Hv.
Qed.

Lemma valid_time_bar_length_increasing :
  increasing candidate_leb valid_time_bar_length = true.
Proof. vm_compute. reflexivity. Qed.

Lemma valid_IV_bar_length_increasing (is_current : bool) :
  increasing candidate_leb (valid_IV_bar_length is_current) = true.
Proof. destruct is_current; vm_compute; reflexivity. Qed.

Lemma binary64_min_smallest_tie (target : float) (l : list (pynum float)) (r : pynum float) :
  increasing candidate_leb l = true ->
  py_min fltb (distance_to target) l = Some r ->
  forall c, In c l ->
    (distance_to target c =? distance_to target r)%float = true ->
    (to_float r <=? to_float c)%float = true.
Proof.
  intros Hinc Hr c Hc Ht.
  exact (@py_min_smallest_tie _ _ fltb (distance_to target) PrimFloat.eqb
           ltb_trans ltb_irrefl eqb_ltb_trans candidate_leb l r Hinc Hr c Hc Ht).
Qed.

(** C2.  In binary64, a candidate at the same distance from the target
    length as the selected one is never smaller than the selected one: of
    equidistant candidates the smaller is returned.  In particular the time
    range [0, 100] at fraction 0.15 has target length exactly 15, candidates
    10 and 20 are both at distance 5, and 10 is returned; likewise for the
    voltage range [-80, 20]. *)
Theorem compute_scale_bar_length_tie_smaller :
  (forall (axis : Axes float) (is_current : bool) (bar_length : float),
     exists t v,
       compute_scale_bar_length axis is_current bar_length = Some (t, v) /\
       (forall c, In c valid_time_bar_length ->
          (distance_to (time_target axis bar_length) c
           =? distance_to (time_target axis bar_length) t)%float = true ->
          (to_float t <=? to_float c)%float = true) /\
       (forall c, In c (valid_IV_bar_length is_current) ->
          (distance_to (IV_target axis bar_length) c
           =? distance_to (IV_target axis bar_length) v)%float = true ->
          (to_float v <=? to_float c)%float = true)) /\
  (forall (yl : float * float) (is_current : bool),
     let axis := axes_with_limits (0, 100)%float yl in
     time_target axis 0.15%float = 15%float /\
     distance_to 15%float (PyInt 10) = 5%float /\
     distance_to 15%float (PyInt 20) = 5%float /\
     exists v, compute_scale_bar_length axis is_current 0.15%float = Some (PyInt 10, v)) /\
  (forall (xl : float * float),
     let axis := axes_with_limits xl (-80, 20)%float in
     IV_target axis 0.15%float = 15%float /\
     exists t, compute_scale_bar_length axis false 0.15%float = Some (t, PyInt 10)).
Proof.
  split; [|split].
  - intros axis is_current bar_length.
    destruct (@compute_scale_bar_length_In float binary64 axis is_current bar_length)
      as (t & v & E & _ & _).
    exists t, v. split; [exact E|].
    rewrite compute_scale_bar_length_eq in E.
    destruct (py_min fltb (distance_to (time_target axis bar_length)) valid_time_bar_length)
      as [t'|] eqn:Et; [|discriminate].
    destruct (py_min fltb (distance_to (IV_target axis bar_length))
                (valid_IV_bar_length is_current)) as [v'|] eqn:Ev; [|discriminate].
    injection E as -> ->. split.
    + apply binary64_min_smallest_tie with (l := valid_time_bar_length);
        [apply valid_time_bar_length_increasing | exact Et].
    + apply binary64_min_smallest_tie with (l := valid_IV_bar_length is_current);
        [apply valid_IV_bar_length_increasing | exact Ev].
  - intros yl is_current axis.
    assert (Ht : time_target axis 0.15%float = 15%float) by reflexivity.
    split; [exact Ht|]. split; [reflexivity|]. split; [reflexivity|].
    rewrite compute_scale_bar_length_eq, Ht.
    assert (E : py_min fltb (distance_to 15%float) valid_time_bar_length
                = Some (@PyInt float 10)) by (vm_compute; reflexivity).
    rewrite E.
    destruct is_current; cbn [valid_IV_bar_length valid_current_bar_length
      valid_voltage_bar_length py_min]; eexists; reflexivity.
  - intros xl axis.
    assert (Ht : IV_target axis 0.15%float = 15%float) by reflexivity.
    split; [exact Ht|].
    rewrite compute_scale_bar_length_eq, Ht.
    assert (E : py_min fltb (distance_to 15%float) (valid_IV_bar_length false)
                = Some (@PyInt float 10)) by (vm_compute; reflexivity).
    rewrite E.
    cbn [valid_time_bar_length py_min]. eexists; reflexivity.
Qed.

(* ================================================================== *)
(** * Scale-bar position *)


(** Nor is y always above the lower limit: on the range [1e16, 1e16 + 2]
    the offset 0.3 * 2 is below half the spacing of the floats at 1e16 and
    is absorbed by the addition. *)
Example origin_y_overflow_and_absorption :
  snd (compute_scale_bar_position
         (axes_with_limits (0, 1)%float (-1e308, 1e308)%float) (PyInt 1) true)
  = infinity /\
  snd (compute_scale_bar_position
         (axes_with_limits (0, 1)%float (10000000000000000, 10000000000000002)%float)
         (PyInt 1) true)
  = 10000000000000000%float.
Proof. split; reflexivity. Qed.




Example origin_at_0_100 :
  compute_scale_bar_position (axes_with_limits (0, 100)%float (-80, 20)%float)
    (PyInt 10) false
  = (-12, -80)%float.
Proof. reflexivity. Qed.

Example origin_at_1e20 :
  let axis := axes_with_limits (100000000000000000000, 110000000000000000000)%float
                (-80, 20)%float in
  compute_scale_bar_length axis false 0.15%float = Some (PyInt 5000, PyInt 10) /\
  compute_scale_bar_position axis (PyInt 5000) false
  = (100000000000000000000, -80)%float.
Proof. split; vm_compute; reflexivity. Qed.



(* ================================================================== *)
(** * Number formatting *)

Example py_str_examples :
  py_str (PyFloat 1000.0%float) = "1000.0" /\
  py_str (PyFloat 0.1%float) = "0.1" /\
  py_str (PyFloat 1.50%float) = "1.5" /\
  py_str (PyInt 1000) = "1000".
Proof. repeat split; vm_compute; reflexivity. Qed.

(** C8.  [format_float] returns the decimals 1000, 0.1 and 1.5 for the
    floats 1000.0, 0.1 and 1.50, and these print as "1000", "0.1" and "1.5"
    in a label. *)
Theorem format_float_strips_trailing_zeros :
  (exists d, format_float (PyFloat 1000.0%float) = Ok d /\ Decimal.to_string d = "1000") /\
  (exists d, format_float (PyFloat 0.1%float) = Ok d /\ Decimal.to_string d = "0.1") /\
  (exists d, format_float (PyFloat 1.50%float) = Ok d /\ Decimal.to_string d = "1.5").
Proof.
  repeat split.
  - exists (Decimal.Finite false 1000 0). split; vm_compute; reflexivity.
  - exists (Decimal.Finite false 1 (-1)). split; vm_compute; reflexivity.
  - exists (Decimal.Finite false 15 (-1)). split; vm_compute; reflexivity.
Qed.

Example label_number_time :
  map label_number valid_time_bar_length =
  map Some ["0.1"; "0.5"; "1"; "2"; "5"; "10"; "20"; "50"; "100"; "200"; "500";
            "1000"; "2000"; "5000"].
Proof. vm_compute. reflexivity. Qed.

Example label_number_voltage :
  map label_number valid_voltage_bar_length =
  map Some ["0.1"; "0.5"; "1"; "2"; "5"; "10"; "20"; "50"; "100"].
Proof. vm_compute. reflexivity. Qed.

Example label_number_current :
  map label_number valid_current_bar_length =
  map Some ["0.001"; "0.005"; "0.01"; "0.05"; "0.1"; "0.5"; "1"; "5"; "10"; "50"].
Proof. vm_compute. reflexivity. Qed.

(** Every candidate length has a label. *)
Lemma format_float_candidate (l : list (pynum float)) (c : pynum float) :
  forallb (fun x => match format_float x with Ok _ => true | Raise _ => false end) l = true ->
  In c l -> exists d, format_float c = Ok d.
Proof.
  intros Hall Hc. rewrite forallb_forall in Hall. specialize (Hall c Hc).
  destruct (format_float c) as [d|e]; [exists d; reflexivity | discriminate].
Qed.

Lemma format_float_time (c : pynum float) :
  In c valid_time_bar_length -> exists d, format_float c = Ok d.
Proof. apply format_float_candidate. vm_compute. reflexivity. Qed.

Lemma format_float_IV (is_current : bool) (c : pynum float) :
  In c (valid_IV_bar_length is_current) -> exists d, format_float c = Ok d.
Proof. apply format_float_candidate. destruct is_current; vm_compute; reflexivity. Qed.

(* ================================================================== *)
(** * Style resolution *)

(** C6.  [define_style] returns the preset for the names "explore" and
    "paper", returns a style object unchanged, and for any other name raises
    [ValueError("Unknown style: <name>")] instead of returning a style. *)
Theorem define_style_resolution :
  forall (ExploreStyle PaperStyle : Style),
    define_style ExploreStyle PaperStyle (StyleName "explore") = Ok ExploreStyle /\
    define_style ExploreStyle PaperStyle (StyleName "paper") = Ok PaperStyle /\
    (forall st, define_style ExploreStyle PaperStyle (StyleObj st) = Ok st) /\
    (forall name, name <> "explore" -> name <> "paper" ->
       define_style ExploreStyle PaperStyle (StyleName name)
       = Raise (ValueError ("Unknown style: " ++ name))).
Proof.
  intros ExploreStyle PaperStyle. repeat split.
  intros name Hexplore Hpaper. unfold define_style.
  apply String.eqb_neq in Hexplore, Hpaper. rewrite Hexplore, Hpaper. reflexivity.
Qed.

(* ================================================================== *)
(** * Drawing the scale bars *)

Lemma list_update_app_here {A} (l : list A) (x : A) (rest : list A) (f : A -> A) :
  list_update (l ++ x :: rest)%list (List.length l) f = (l ++ f x :: rest)%list.
Proof. induction l as [|y l IH]; cbn; [reflexivity | rewrite IH; reflexivity]. Qed.

Lemma list_update_app_next {A} (l : list A) (x y : A) (rest : list A) (f : A -> A) :
  list_update (l ++ x :: y :: rest)%list (S (List.length l)) f = (l ++ x :: f y :: rest)%list.
Proof.
  induction l as [|z l IH]; cbn; [reflexivity | cbn in IH; rewrite IH; reflexivity].
Qed.

Lemma list_update_twice {A} (f : A -> A) (l : list A) :
  (forall x, f (f x) = f x) ->
  forall i, list_update (list_update l i f) i f = list_update l i f.
Proof.
  intros Hf. induction l as [|x l IH]; intros [|i]; cbn; try reflexivity.
  - rewrite Hf. reflexivity.
  - rewrite IH. reflexivity.
Qed.

(** Setting two positions a second time changes nothing, whether or not the
    two texts are the same one. *)
Lemma list_update_move_again (p q : float * float) (l : list (Text float)) :
  forall i j,
    list_update (list_update (list_update (list_update l i (move_text p)) j (move_text q))
                             i (move_text p)) j (move_text q)
    = list_update (list_update l i (move_text p)) j (move_text q).
Proof.
  induction l as [|x l IH]; intros [|i] [|j]; cbn; try reflexivity.
  - rewrite !list_update_twice by reflexivity. reflexivity.
  - rewrite !list_update_twice by reflexivity. reflexivity.
  - rewrite IH. reflexivity.
Qed.

Lemma update_same {A} (f : nat -> A) (i : nat) (v : A) : update f i v i = v.
Proof. unfold update. rewrite Nat.eqb_refl. reflexivity. Qed.

(** Unfolding of the state-and-exception operations on a given world. *)
Ltac run :=
  cbv beta iota zeta delta
    [bind ret lift raise call get_world get_axes set_axes modify_axes modify_figure as_axes
     no_attribute ax_plot ax_text ax_get_figure text_set_position
     draw_scale_bars move_labels get_text_bbox define_style
     call_compute_scale_bar_length call_compute_scale_bar_position];
  cbn [axes_of figure_of next_axes next_figure fst snd].

Section DrawFacts.
Variables ExploreStyle PaperStyle : Style.
Variable mpl : Matplotlib.

Ltac texts_now :=
  unfold texts_of; cbn [axes_of]; rewrite ?update_same;
  cbn [ax_texts with_texts add_line];
  rewrite ?length_app; cbn [List.length]; rewrite ?Nat.add_1_r;
  rewrite <- ?app_assoc; cbn [app];
  rewrite ?list_update_app_here, ?list_update_app_next;
  cbn [move_text text_str text_ha text_va text_fontsize];
  rewrite ?list_update_app_here, ?list_update_app_next;
  cbn [move_text text_str text_ha text_va text_fontsize].

(** Up to the repositioning of the labels: on an axes object whose two bars
    matplotlib accepts, [draw_scale_bars] draws the bars, adds the two
    labels at the bar origin and runs the repositioning block. *)
Lemma draw_scale_bars_adds_labels (a : nat) (is_current : bool) (st : Style) (w : World)
    (t v : pynum float) (dt dv : Decimal.t) :
  compute_scale_bar_length (axes_of w a) is_current 0.15%float = Some (t, v) ->
  format_float t = Ok dt -> format_float v = Ok dv ->
  let ax := axes_of w a in
  let origin := compute_scale_bar_position ax t is_current in
  let bar_t := mkLine [fst origin; (fst origin + to_float t)%float]
                      [snd origin; snd origin] "black" None (Some 1%float) false in
  let bar_v := mkLine [fst origin; fst origin]
                      [snd origin; (snd origin + to_float v)%float]
                      "black" None (Some 1%float) false in
  plot mpl bar_t = Returns tt -> plot mpl bar_v = Returns tt ->
  exists w1,
    draw_scale_bars ExploreStyle PaperStyle mpl (AxesObj a) is_current (StyleObj st) w
    = move_labels mpl (AxesObj a) origin t v
        (a, List.length (ax_texts ax)) (a, S (List.length (ax_texts ax))) w1 /\
    axes_of w1 a
    = mkAxes (get_xlim ax) (get_ylim ax) (ax_lines ax ++ [bar_t; bar_v])%list
        (ax_texts ax ++
         [mkText origin (Decimal.to_string dt ++ " ms") "center" "bottom"
                 (scale_bars_fontsize st);
          mkText origin (Decimal.to_string dv ++ (if is_current then " nA" else " mV"))
                 "left" "center" (scale_bars_fontsize st)])%list
        (ax_spines_visible ax) (ax_xticks ax) (ax_yticks ax)
        (ax_xlabel ax) (ax_ylabel ax) (ax_figure ax) /\
    (forall b, b <> a -> axes_of w1 b = axes_of w b) /\
    figure_of w1 = figure_of w /\
    next_axes w1 = next_axes w /\ next_figure w1 = next_figure w.
Proof.
  intros E Edt Edv ax origin bar_t bar_v Hbar_t Hbar_v.
  subst ax origin bar_t bar_v.
  unfold draw_scale_bars, move_labels.
  cbv beta iota zeta delta
    [bind ret lift raise call get_world get_axes set_axes modify_axes as_axes
     ax_plot ax_text define_style
     call_compute_scale_bar_length call_compute_scale_bar_position].
  cbn [axes_of figure_of next_axes next_figure fst snd].
  rewrite E. cbv beta iota. change (Z2F 1) with 1%float.
  rewrite Hbar_t. cbv beta iota. cbn [axes_of figure_of next_axes next_figure fst snd].
  rewrite Hbar_v. cbv beta iota. cbn [axes_of figure_of next_axes next_figure fst snd].
  rewrite Edt. cbv beta iota. cbn [axes_of figure_of next_axes next_figure fst snd].
  destruct is_current; cbv beta iota; rewrite Edv; cbv beta iota;
    cbn [axes_of figure_of next_axes next_figure fst snd];
    rewrite !update_same;
    cbn [ax_texts ax_lines with_texts add_line get_xlim get_ylim
         ax_spines_visible ax_xticks ax_yticks ax_xlabel ax_ylabel ax_figure];
    rewrite ?length_app; cbn [List.length]; rewrite ?Nat.add_1_r.
  all: eexists; split; [reflexivity|]; cbn [axes_of figure_of next_axes next_figure];
    split;
    [ rewrite update_same; unfold with_texts, add_line;
      cbn [ax_texts ax_lines get_xlim get_ylim ax_spines_visible ax_xticks ax_yticks
           ax_xlabel ax_ylabel ax_figure];
      rewrite <- ?app_assoc; reflexivity
    | split; [|repeat split];
      intros b Hb; unfold update; apply Nat.eqb_neq in Hb; rewrite Hb; reflexivity ].
Qed.

(** C5.  The repositioning block draws the figure and measures the time
    label in the world it is entered in, and sets the label's position to
    (origin.x + 0.5 * time length, origin.y - 1.8 * h_t), h_t being the
    measured height; it then measures the dependent label and sets its
    position to (origin.x - 1.3 * w_d, origin.y + 0.5 * dependent length),
    w_d being the measured width.  A measurement that fails ends the block
    with the labels where they are.
    On an axes object whose two bars matplotlib accepts, [draw_scale_bars]
    adds the two labels at the bar origin and runs this block: it returns
    with both labels at these positions when both measurements return, and
    raises with the labels left where they are when a measurement fails. *)
Theorem draw_scale_bars_label_positions :
  (forall (a : nat) (origin : float * float) (time_bar_length IV_bar_length : pynum float)
          (time_label iv_label : nat * nat) (w : World),
     move_labels mpl (AxesObj a) origin time_bar_length IV_bar_length
                 time_label iv_label w
     = match window_extent mpl w time_label with
       | Fails what => (Raise (LibraryError what), w)
       | Returns bb_t =>
           let h_t := bb_height bb_t in
           let w1 := snd (text_set_position time_label
                            ((fst origin + 0.5 * to_float time_bar_length)%float,
                             (snd origin - 1.8 * h_t)%float) w) in
           match window_extent mpl w1 iv_label with
           | Fails what => (Raise (LibraryError what), w1)
           | Returns bb_d =>
               let w_d := bb_width bb_d in
               text_set_position iv_label
                 ((fst origin - 1.3 * w_d)%float,
                  (snd origin + 0.5 * to_float IV_bar_length)%float) w1
           end
       end) /\
  (forall (a : nat) (is_current : bool) (st : Style) (w : World),
   exists t v dt dv,
     compute_scale_bar_length (axes_of w a) is_current 0.15%float = Some (t, v) /\
     format_float t = Ok dt /\ format_float v = Ok dv /\
     let origin := compute_scale_bar_position (axes_of w a) t is_current in
     let n := List.length (texts_of w a) in
     let time_label p :=
       mkText p (Decimal.to_string dt ++ " ms") "center" "bottom" (scale_bars_fontsize st) in
     let iv_label p :=
       mkText p (Decimal.to_string dv ++ (if is_current then " nA" else " mV"))
              "left" "center" (scale_bars_fontsize st) in
     plot mpl (mkLine [fst origin; (fst origin + to_float t)%float]
                      [snd origin; snd origin] "black" None (Some 1%float) false)
     = Returns tt ->
     plot mpl (mkLine [fst origin; fst origin]
                      [snd origin; (snd origin + to_float v)%float]
                      "black" None (Some 1%float) false)
     = Returns tt ->
     exists w1,
       texts_of w1 a = (texts_of w a ++ [time_label origin; iv_label origin])%list /\
       match window_extent mpl w1 (a, n) with
       | Fails what =>
           draw_scale_bars ExploreStyle PaperStyle mpl
             (AxesObj a) is_current (StyleObj st) w = (Raise (LibraryError what), w1)
       | Returns bb_t =>
           let time_pos :=
             ((fst origin + 0.5 * to_float t)%float,
              (snd origin - 1.8 * bb_height bb_t)%float) in
           exists w2,
             texts_of w2 a
             = (texts_of w a ++ [time_label time_pos; iv_label origin])%list /\
             match window_extent mpl w2 (a, S n) with
             | Fails what =>
                 draw_scale_bars ExploreStyle PaperStyle mpl
                   (AxesObj a) is_current (StyleObj st) w = (Raise (LibraryError what), w2)
             | Returns bb_d =>
                 let dep_pos :=
                   ((fst origin - 1.3 * bb_width bb_d)%float,
                    (snd origin + 0.5 * to_float v)%float) in
                 exists w',
                   draw_scale_bars ExploreStyle PaperStyle mpl
                     (AxesObj a) is_current (StyleObj st) w = (Ok tt, w') /\
                   texts_of w' a
                   = (texts_of w a ++ [time_label time_pos; iv_label dep_pos])%list
             end
       end).
Proof.
  split.
  - intros a origin t v time_label iv_label w. run.
    destruct (window_extent mpl w time_label) as [bb_t|what]; [|reflexivity].
    cbv beta iota zeta.
    match goal with
    | |- context [window_extent mpl ?W iv_label] =>
        destruct (window_extent mpl W iv_label) as [bb_d|what]; reflexivity
    end.
  - intros a is_current st w.
    destruct (@compute_scale_bar_length_In float binary64 (axes_of w a) is_current
                0.15%float) as (t & v & E & Ht & Hv).
    destruct (format_float_time t Ht) as [dt Edt].
    destruct (format_float_IV is_current v Hv) as [dv Edv].
    exists t, v, dt, dv.
    split; [exact E|]. split; [exact Edt|]. split; [exact Edv|].
    intros origin n time_label iv_label Hbar_t Hbar_v.
    destruct (draw_scale_bars_adds_labels a is_current st w t v dt dv E Edt Edv
                Hbar_t Hbar_v) as (w1 & Hdraw & Hax & _).
    cbv zeta in Hdraw, Hax. fold origin in Hdraw, Hax.
    exists w1. split; [unfold texts_of; rewrite Hax; reflexivity|].
    rewrite Hdraw. subst n. unfold texts_of. run.
    destruct (window_extent mpl w1 (a, List.length (ax_texts (axes_of w a))))
      as [bb_t|what]; [|reflexivity].
    cbv beta iota zeta.
    match goal with
    | |- context [window_extent mpl ?W (a, S _)] => exists W
    end.
    split.
    { cbn [axes_of]. rewrite update_same, Hax. cbn [ax_texts with_texts].
      rewrite list_update_app_here. reflexivity. }
    match goal with
    | |- context [window_extent mpl ?W (a, S ?k)] =>
        destruct (window_extent mpl W (a, S k)) as [bb_d|what]; [|reflexivity]
    end.
    eexists. split; [reflexivity|].
    cbn [axes_of]. rewrite !update_same, Hax. cbn [ax_texts with_texts].
    rewrite list_update_app_here. cbn [ax_texts with_texts].
    rewrite list_update_app_next. reflexivity.
Qed.

(** C9.  When the measurements return the same height for the time label
    and the same width for the dependent label each time, running the label
    repositioning a second time returns and leaves every object as the first
    run left it: both labels keep their positions. *)
Theorem move_labels_idempotent :
  forall (a : nat) (scale_bar_origin : float * float)
         (time_bar_length IV_bar_length : pynum float) (i j : nat) (w : World)
         (h_t w_d : float),
    (forall w0, exists bb,
       window_extent mpl w0 (a, i) = Returns bb /\ bb_height bb = h_t) ->
    (forall w0, exists bb,
       window_extent mpl w0 (a, j) = Returns bb /\ bb_width bb = w_d) ->
    let once :=
      move_labels mpl (AxesObj a) scale_bar_origin time_bar_length
                  IV_bar_length (a, i) (a, j) w in
    let twice :=
      move_labels mpl (AxesObj a) scale_bar_origin time_bar_length
                  IV_bar_length (a, i) (a, j) (snd once) in
    fst once = Ok tt /\ fst twice = Ok tt /\ same_objects (snd twice) (snd once).
Proof.
  intros a origin tl dl i j w h_t w_d Hh Hw once twice.
  assert (Hrun : forall w0,
             move_labels mpl (AxesObj a) origin tl dl (a, i) (a, j) w0
             = text_set_position (a, j)
                 ((fst origin - 1.3 * w_d)%float, (snd origin + 0.5 * to_float dl)%float)
                 (snd (text_set_position (a, i)
                         ((fst origin + 0.5 * to_float tl)%float,
                          (snd origin - 1.8 * h_t)%float) w0))).
  { intros w0. run.
    destruct (Hh w0) as (bb_t & -> & <-). cbv beta iota.
    match goal with
    | |- context [window_extent mpl ?W (a, j)] =>
        destruct (Hw W) as (bb_d & -> & <-)
    end.
    reflexivity. }
  subst once twice. rewrite !Hrun. run.
  split; [reflexivity|]. split; [reflexivity|].
  unfold same_objects; cbn [axes_of figure_of next_axes next_figure].
  split; [|auto]. intros b. unfold update.
  destruct (Nat.eqb b a); [|reflexivity].
  rewrite !Nat.eqb_refl. cbn [ax_texts with_texts get_xlim get_ylim ax_lines
    ax_spines_visible ax_xticks ax_yticks ax_xlabel ax_ylabel ax_figure].
  rewrite list_update_move_again. reflexivity.
Qed.

End DrawFacts.

(* ================================================================== *)
(** * Plotting a trace *)

Lemma bind_lift_ok {A B} (a : A) (k : A -> M B) (w : World) :
  bind (lift (Ok a)) k w = k a w.
Proof. reflexivity. Qed.

Lemma bind_lift_raise {A B} (e : exn) (k : A -> M B) (w : World) :
  bind (lift (Raise e)) k w = (Raise e, w).
Proof. reflexivity. Qed.

(** ** Computations that do not raise the shape-mismatch error *)

Lemma nsm_ret {A} (a : A) : no_shape_mismatch (ret a).
Proof. intros w. cbn. discriminate. Qed.

Lemma nsm_bind {A B} (m : M A) (k : A -> M B) :
  no_shape_mismatch m -> (forall a, no_shape_mismatch (k a)) ->
  no_shape_mismatch (bind m k).
Proof.
  intros Hm Hk w. unfold bind. specialize (Hm w).
  destruct (m w) as [[a|e] w']; [apply Hk|].
  cbn in *. intros H. apply Hm. injection H as ->. reflexivity.
Qed.

Lemma nsm_raise {A} (e : exn) : e <> shape_mismatch -> no_shape_mismatch (@raise A e).
Proof. intros He w. cbn. congruence. Qed.

Lemma nsm_lift {A} (r : result A) : r <> Raise shape_mismatch -> no_shape_mismatch (lift r).
Proof. intros Hr w. exact Hr. Qed.

Ltac nsm_step :=
  first
    [ apply nsm_ret
    | apply nsm_bind; [|intros ?]
    | apply nsm_raise; unfold shape_mismatch, shape_mismatch_message; cbn; congruence
    | match goal with
      | |- no_shape_mismatch (match ?x with _ => _ end) => destruct x
      end
    | intros ?w; cbn; discriminate ].

Ltac nsm := repeat nsm_step.

Lemma nsm_get_world : no_shape_mismatch get_world.
Proof. nsm. Qed.
Lemma nsm_get_axes a : no_shape_mismatch (get_axes a).
Proof. nsm. Qed.
Lemma nsm_set_axes a ax : no_shape_mismatch (set_axes a ax).
Proof. nsm. Qed.
Lemma nsm_modify_axes a f : no_shape_mismatch (modify_axes a f).
Proof. unfold modify_axes. nsm. Qed.
Lemma nsm_modify_figure g f : no_shape_mismatch (modify_figure g f).
Proof. nsm. Qed.
Lemma nsm_as_axes attr o : no_shape_mismatch (as_axes attr o).
Proof. unfold as_axes, no_attribute. nsm. Qed.
Lemma nsm_py_len o : no_shape_mismatch (py_len o).
Proof. unfold py_len. nsm. Qed.
Lemma nsm_py_getitem o i : no_shape_mismatch (py_getitem o i).
Proof. unfold py_getitem. nsm. Qed.
Lemma nsm_py_truth o : no_shape_mismatch (py_truth o).
Proof. unfold py_truth. nsm. Qed.
Lemma nsm_series_getitem s i : no_shape_mismatch (series_getitem s i).
Proof. unfold series_getitem. nsm. Qed.
Lemma nsm_series_min s : no_shape_mismatch (series_min s).
Proof. unfold series_min. nsm. Qed.
Lemma nsm_series_max s : no_shape_mismatch (series_max s).
Proof. unfold series_max. nsm. Qed.
Lemma nsm_alloc_axes ax : no_shape_mismatch (alloc_axes ax).
Proof. nsm. Qed.
Lemma nsm_alloc_figure f : no_shape_mismatch (alloc_figure f).
Proof. nsm. Qed.
Lemma nsm_call {A} (o : outcome A) : no_shape_mismatch (call o).
Proof. destruct o; intros w; cbn; discriminate. Qed.

Create HintDb nsm.
#[local] Hint Resolve nsm_get_world nsm_get_axes nsm_set_axes nsm_modify_axes
  nsm_modify_figure nsm_as_axes nsm_py_len nsm_py_getitem nsm_py_truth
  nsm_series_getitem nsm_series_min nsm_series_max nsm_alloc_axes nsm_alloc_figure
  nsm_call : nsm.

Ltac nsm_auto :=
  repeat first
    [ solve [auto with nsm]
    | apply nsm_ret
    | apply nsm_bind; [|intros ?]
    | apply nsm_raise; unfold shape_mismatch, shape_mismatch_message; cbn; congruence
    | match goal with
      | |- no_shape_mismatch (match ?x with _ => _ end) => destruct x
      end ].

Lemma nsm_alloc_n_axes n fig : no_shape_mismatch (alloc_n_axes n fig).
Proof. induction n as [|n IH]; cbn [alloc_n_axes]; nsm_auto. Qed.
#[local] Hint Resolve nsm_alloc_n_axes : nsm.

Lemma nsm_plt_subplots mpl n figsize : no_shape_mismatch (plt_subplots mpl n figsize).
Proof. unfold plt_subplots. nsm_auto. Qed.
Lemma nsm_ax_get_figure o : no_shape_mismatch (ax_get_figure o).
Proof. unfold ax_get_figure. nsm_auto. Qed.
Lemma nsm_ax_twinx o : no_shape_mismatch (ax_twinx o).
Proof. unfold ax_twinx. nsm_auto. Qed.
Lemma nsm_ax_plot mpl o l : no_shape_mismatch (ax_plot mpl o l).
Proof. unfold ax_plot. nsm_auto. Qed.
Lemma nsm_ax_text o t : no_shape_mismatch (ax_text o t).
Proof. unfold ax_text. nsm_auto. Qed.
Lemma nsm_text_set_position t p : no_shape_mismatch (text_set_position t p).
Proof. unfold text_set_position. nsm_auto. Qed.
Lemma nsm_ax_set_xlim mpl o lo hi : no_shape_mismatch (ax_set_xlim mpl o lo hi).
Proof. unfold ax_set_xlim. nsm_auto. Qed.
Lemma nsm_ax_set_ylim mpl o lo hi : no_shape_mismatch (ax_set_ylim mpl o lo hi).
Proof. unfold ax_set_ylim. nsm_auto. Qed.
Lemma nsm_ax_set_xlabel o s f : no_shape_mismatch (ax_set_xlabel o s f).
Proof. unfold ax_set_xlabel. nsm_auto. Qed.
Lemma nsm_ax_set_ylabel o s f : no_shape_mismatch (ax_set_ylabel o s f).
Proof. unfold ax_set_ylabel. nsm_auto. Qed.
Lemma nsm_fig_set_suptitle g s f : no_shape_mismatch (fig_set_suptitle g s f).
Proof. unfold fig_set_suptitle. nsm_auto. Qed.
Lemma nsm_fig_set_tight_layout g : no_shape_mismatch (fig_set_tight_layout g).
Proof. unfold fig_set_tight_layout. nsm_auto. Qed.
#[local] Hint Resolve nsm_plt_subplots nsm_ax_get_figure nsm_ax_twinx nsm_ax_plot
  nsm_ax_text nsm_text_set_position nsm_ax_set_xlim nsm_ax_set_ylim nsm_ax_set_xlabel
  nsm_ax_set_ylabel nsm_fig_set_suptitle nsm_fig_set_tight_layout : nsm.

Ltac break_match :=
  match goal with
  | |- context [let (_, _) := ?x in _] => destruct x
  | |- context [if ?b then _ else _] => destruct b
  | |- context [match ?x with _ => _ end] => destruct x
  end.

Lemma of_string_not_value_error s : not_value_error (Decimal.of_string s).
Proof. unfold Decimal.of_string. repeat break_match; exact I. Qed.

Lemma quantize_not_value_error d e : not_value_error (Decimal.quantize d e).
Proof. unfold Decimal.quantize. repeat break_match; exact I. Qed.

Lemma format_float_not_value_error x : not_value_error (format_float x).
Proof.
  unfold format_float.
  pose proof (of_string_not_value_error (py_str x)) as H.
  destruct (Decimal.of_string (py_str x)) as [d|e]; [|exact H].
  destruct (Decimal.eqb d (Decimal.to_integral d)); [apply quantize_not_value_error | exact I].
Qed.

Lemma nsm_format_float x : no_shape_mismatch (lift (format_float x)).
Proof.
  apply nsm_lift. intros E. pose proof (format_float_not_value_error x) as H.
  rewrite E in H. exact H.
Qed.
#[local] Hint Resolve nsm_format_float : nsm.

(** ** Computations that always raise *)

Lemma ar_raise {A} (e : exn) : always_raises (@raise A e).
Proof. intros w. exists e. reflexivity. Qed.

Lemma ar_bind_l {A B} (m : M A) (k : A -> M B) :
  always_raises m -> always_raises (bind m k).
Proof.
  intros Hm w. unfold bind. destruct (Hm w) as [e He].
  destruct (m w) as [[a|e'] w']; cbn in He; [discriminate|].
  exists e'. reflexivity.
Qed.

Lemma ar_bind_r {A B} (m : M A) (k : A -> M B) :
  (forall a, always_raises (k a)) -> always_raises (bind m k).
Proof.
  intros Hk w. unfold bind.
  destruct (m w) as [[a|e] w']; [apply Hk | exists e; reflexivity].
Qed.

Section PlotFacts.
Variables ExploreStyle PaperStyle : Style.
Variable mpl : Matplotlib.

Lemma define_style_not_shape_mismatch style :
  define_style ExploreStyle PaperStyle style <> Raise shape_mismatch.
Proof.
  destruct style as [name|st]; cbn; [|discriminate].
  destruct (name =? "explore"); [discriminate|].
  destruct (name =? "paper"); discriminate.
Qed.

Lemma nsm_define_style style : no_shape_mismatch (lift (define_style ExploreStyle PaperStyle style)).
Proof. apply nsm_lift, define_style_not_shape_mismatch. Qed.
Hint Resolve nsm_define_style : nsm.

Lemma nsm_get_text_bbox t o d : no_shape_mismatch (get_text_bbox mpl t o d).
Proof. unfold get_text_bbox. nsm_auto. Qed.
Hint Resolve nsm_get_text_bbox : nsm.

Lemma nsm_call_compute_scale_bar_length o ic :
  no_shape_mismatch (call_compute_scale_bar_length o ic).
Proof. unfold call_compute_scale_bar_length. nsm_auto. Qed.

Lemma nsm_call_compute_scale_bar_position o t ic :
  no_shape_mismatch (call_compute_scale_bar_position o t ic).
Proof. unfold call_compute_scale_bar_position. nsm_auto. Qed.
Hint Resolve nsm_call_compute_scale_bar_length nsm_call_compute_scale_bar_position : nsm.

Lemma nsm_move_labels o p t v tl il :
  no_shape_mismatch (move_labels mpl o p t v tl il).
Proof. unfold move_labels. nsm_auto. Qed.
Hint Resolve nsm_move_labels : nsm.

Lemma nsm_draw_scale_bars o ic style : no_shape_mismatch (draw_scale_bars ExploreStyle PaperStyle mpl o ic style).
Proof. unfold draw_scale_bars. nsm_auto. Qed.

Lemma nsm_hide_spines o : no_shape_mismatch (hide_spines o).
Proof. unfold hide_spines. nsm_auto. Qed.
Hint Resolve nsm_draw_scale_bars nsm_hide_spines : nsm.

Lemma plot_trace_wrong_axis_count time_series voltage_series current_series title axis style w :
  wrong_axis_count ExploreStyle PaperStyle current_series axis style ->
  plot_trace ExploreStyle PaperStyle mpl time_series voltage_series current_series title axis style w
  = (Raise shape_mismatch, w).
Proof.
  intros (st & l & Hst & Haxis & Hlen).
  unfold plot_trace. rewrite Hst, bind_lift_ok.
  apply Z.eqb_neq in Hlen. unfold n_current_series in Hlen.
  destruct Haxis as [-> | ->]; unfold bind at 1; unfold bind at 1;
    cbn [py_len ret]; rewrite Hlen; reflexivity.
Qed.

Lemma shape_mismatch_only_on_wrong_axis_count time_series voltage_series current_series title axis style w :
  fst (plot_trace ExploreStyle PaperStyle mpl time_series voltage_series current_series title axis style w)
  = Raise shape_mismatch ->
  wrong_axis_count ExploreStyle PaperStyle current_series axis style.
Proof.
  unfold plot_trace.
  destruct (define_style ExploreStyle PaperStyle style) as [st|e] eqn:Hst.
  2:{ rewrite bind_lift_raise. cbn. intros H. exfalso.
      apply (define_style_not_shape_mismatch style). rewrite Hst.
      injection H as ->. reflexivity. }
  rewrite bind_lift_ok.
  fold (n_current_series current_series).
  set (n_plots := get_n_plots 1 (n_current_series current_series) (shared_axis st)).
  assert (Hrest : forall (m : M (nat * pyobj)) (k : nat * pyobj -> M (nat * pyobj)),
             no_shape_mismatch m -> (forall x, no_shape_mismatch (k x)) ->
             fst (bind m k w) = Raise shape_mismatch -> False).
  { intros m k Hm Hk H. exact (nsm_bind m k Hm Hk w H). }
  intros H.
  destruct axis as [|a|l|l].
  - exfalso. revert H. apply Hrest; [nsm_auto|].
    intros [fig axis]. nsm_auto.
  - exfalso. revert H.
    match goal with
    | |- context [bind (py_len (AxesObj a)) ?K] =>
        change (bind (py_len (AxesObj a)) K)
          with (@raise (nat * pyobj) (TypeError "object of type 'Axes' has no len()"))
    end.
    apply Hrest; [nsm_auto|].
    intros [fig axis]. nsm_auto.
  - destruct (Z.of_nat (List.length l) =? n_plots)%Z eqn:Hlen.
    + exfalso. revert H.
      match goal with
      | |- context [bind (py_len (PyListOf l)) ?K] =>
          change (bind (py_len (PyListOf l)) K) with (K (Z.of_nat (List.length l)))
      end.
      cbv beta. rewrite Hlen. cbn [negb].
      apply Hrest; [nsm_auto|].
      intros [fig axis]. nsm_auto.
    + exists st, l. split; [exact Hst|]. split; [left; reflexivity|].
      apply Z.eqb_neq. exact Hlen.
  - destruct (Z.of_nat (List.length l) =? n_plots)%Z eqn:Hlen.
    + exfalso. revert H.
      match goal with
      | |- context [bind (py_len (NdArrayOf l)) ?K] =>
          change (bind (py_len (NdArrayOf l)) K) with (K (Z.of_nat (List.length l)))
      end.
      cbv beta. rewrite Hlen. cbn [negb].
      apply Hrest; [nsm_auto|].
      intros [fig axis]. nsm_auto.
    + exists st, l. split; [exact Hst|]. split; [right; reflexivity|].
      apply Z.eqb_neq. exact Hlen.
Qed.

(** C7.  [plot_trace] raises the shape-mismatch [ValueError] exactly when
    the style resolves and the caller supplies a collection of axes (a list
    or an array) whose length differs from the number of plots computed by
    [get_n_plots]; the error is then raised in the world as the caller left
    it: nothing has been created or drawn. *)
Theorem plot_trace_shape_mismatch :
  forall time_series voltage_series current_series title axis style w,
    (fst (plot_trace ExploreStyle PaperStyle mpl time_series voltage_series current_series title axis style w)
     = Raise (ValueError shape_mismatch_message)
     <-> wrong_axis_count ExploreStyle PaperStyle current_series axis style) /\
    (fst (plot_trace ExploreStyle PaperStyle mpl time_series voltage_series current_series title axis style w)
     = Raise (ValueError shape_mismatch_message) ->
     snd (plot_trace ExploreStyle PaperStyle mpl time_series voltage_series current_series title axis style w) = w).
Proof.
  intros time_series voltage_series current_series title axis style w.
  split; [split|].
  - apply shape_mismatch_only_on_wrong_axis_count.
  - intros H. rewrite (plot_trace_wrong_axis_count _ _ _ _ _ _ w H). reflexivity.
  - intros H. apply shape_mismatch_only_on_wrong_axis_count in H.
    rewrite (plot_trace_wrong_axis_count _ _ _ _ _ _ w H). reflexivity.
Qed.

Lemma ar_bind_ret {A B} (a : A) (k : A -> M B) :
  always_raises (k a) -> always_raises (bind (ret a) k).
Proof. intros Hk w. apply Hk. Qed.

Lemma ar_as_axes_none attr : always_raises (as_axes attr PyNone).
Proof. intros w. eexists. reflexivity. Qed.

Ltac ar :=
  cbv beta iota;
  first
    [ apply ar_raise
    | apply ar_as_axes_none
    | match goal with
      | H : scale_bars ?st = false |- always_raises (if scale_bars ?st then _ else _) =>
          rewrite H; ar
      | |- always_raises (let (_, _) := ?x in _) => destruct x; ar
      | |- always_raises (ax_set_xlabel _ _ _) => unfold ax_set_xlabel; ar
      end
    | apply ar_bind_ret; ar
    | apply ar_bind_l; solve [ar]
    | apply ar_bind_r; intros ?; ar ].

Lemma list_getitem_last {A} (x : A) (l : list A) :
  exists y, list_getitem (x :: l) (-1) = Some y.
Proof.
  unfold list_getitem. cbn [Z.leb Z.compare].
  replace (0 <=? Z.of_nat (List.length (x :: l)) + -1)%Z with true
    by (symmetry; apply Z.leb_le; cbn [List.length]; lia).
  destruct (nth_error (x :: l) (Z.to_nat (Z.of_nat (List.length (x :: l)) + -1))) as [y|] eqn:E.
  - exists y. reflexivity.
  - apply nth_error_None in E. cbn [List.length] in E. lia.
Qed.

Lemma list_getitem_last_value {A} (x : A) (l : list A) :
  list_getitem (x :: l) (-1) = Some (List.last (x :: l) x).
Proof.
  unfold list_getitem. cbn [Z.leb Z.compare].
  replace (0 <=? Z.of_nat (List.length (x :: l)) + -1)%Z with true
    by (symmetry; apply Z.leb_le; cbn [List.length]; lia).
  replace (Z.to_nat (Z.of_nat (List.length (x :: l)) + -1)) with (List.length l)
    by (cbn [List.length]; lia).
  generalize x at 3. revert x.
  induction l as [|y l IH]; intros x d; [reflexivity|].
  cbn [List.length nth_error]. rewrite (IH y d). reflexivity.
Qed.

(** [plot_trace] on a voltage trace alone, without scale bars and without
    an axis: what matplotlib refuses is raised, and otherwise the labelling
    branch is reached. *)
Lemma plot_trace_voltage_only_no_scale_bars t0 ts v0 vs title st w :
  scale_bars st = false ->
  fst (plot_trace ExploreStyle PaperStyle mpl (NdArray (t0 :: ts)) (NdArray (v0 :: vs))
         None title PyNone (StyleObj st) w)
  = match subplots mpl 1 (compute_figsize 1 title st) with
    | Fails what => Raise (LibraryError what)
    | Returns _ =>
        match plot mpl (mkLine (t0 :: ts) (v0 :: vs) (voltage_color st)
                               (Some (voltage_alpha st)) (Some (linewidth st)) true) with
        | Fails what => Raise (LibraryError what)
        | Returns _ =>
            match set_lim mpl t0 (List.last (t0 :: ts) t0) with
            | Fails what => Raise (LibraryError what)
            | Returns _ =>
                match set_lim mpl (fold_left np_minimum vs v0)
                                  (fold_left np_maximum vs v0) with
                | Fails what => Raise (LibraryError what)
                | Returns _ =>
                    Raise (AttributeError
                             "'NoneType' object has no attribute 'set_xlabel'")
                end
            end
        end
    end.
Proof.
  intros Hsb.
  pose proof (list_getitem_last_value t0 ts) as Hlast.
  unfold plot_trace. cbn [define_style]. rewrite bind_lift_ok.
  unfold get_n_plots, plt_subplots, series_getitem, series_min,
    series_max, ax_set_xlim, ax_set_ylim, ax_set_xlabel, hide_spines, py_truth.
  rewrite Hsb, orb_true_r. cbn [series_values]. rewrite Hlast.
  destruct (show_spines st);
    (destruct (subplots mpl 1 (compute_figsize 1 title st)) as [[]|wa];
     cbv beta iota zeta delta
       [bind ret lift raise call get_world get_axes set_axes modify_axes modify_figure
        as_axes no_attribute ax_plot define_style alloc_axes alloc_figure alloc_n_axes
        Z.leb Z.compare Z.to_nat Pos.to_nat Pos.iter_op Nat.add list_getitem negb fst snd
        nth_error type_name];
     [|reflexivity]);
    (destruct (plot mpl (mkLine (t0 :: ts) (v0 :: vs) (voltage_color st)
                                (Some (voltage_alpha st)) (Some (linewidth st)) true))
       as [[]|wb]; cbv beta iota; [|reflexivity]);
    (destruct (set_lim mpl t0 (List.last (t0 :: ts) t0)) as [xlim|wc];
     cbv beta iota; [|reflexivity]);
    (destruct (set_lim mpl (fold_left np_minimum vs v0) (fold_left np_maximum vs v0))
       as [ylim|wd]; cbv beta iota; reflexivity).
Qed.

(** C10.  With a style whose [scale_bars] flag is false and no current
    series, [plot_trace] raises on every input.  Called without an axis on
    non-empty arrays, it raises an error of matplotlib (which can refuse the
    figure, the plot of the trace or the view limits) or, when matplotlib
    accepts these and the call gets as far as the labelling branch, the
    [AttributeError] of calling [set_xlabel] on [None], the value of
    [axis_current]. *)
Theorem plot_trace_no_current_no_scale_bars :
  (forall time_series voltage_series title axis style st w,
     define_style ExploreStyle PaperStyle style = Ok st ->
     scale_bars st = false ->
     exists e,
       fst (plot_trace ExploreStyle PaperStyle mpl time_series voltage_series None title axis style w) = Raise e) /\
  (forall t0 ts v0 vs title st w,
     scale_bars st = false ->
     exists e,
       fst (plot_trace ExploreStyle PaperStyle mpl (NdArray (t0 :: ts)) (NdArray (v0 :: vs))
              None title PyNone (StyleObj st) w) = Raise e /\
       (e = AttributeError "'NoneType' object has no attribute 'set_xlabel'" \/
        exists what, e = LibraryError what)) /\
  (forall t0 ts v0 vs title st w xlim ylim,
     scale_bars st = false ->
     subplots mpl 1 (compute_figsize 1 title st) = Returns tt ->
     plot mpl (mkLine (t0 :: ts) (v0 :: vs) (voltage_color st) (Some (voltage_alpha st))
                      (Some (linewidth st)) true) = Returns tt ->
     set_lim mpl t0 (List.last (t0 :: ts) t0) = Returns xlim ->
     set_lim mpl (fold_left np_minimum vs v0) (fold_left np_maximum vs v0) = Returns ylim ->
     fst (plot_trace ExploreStyle PaperStyle mpl (NdArray (t0 :: ts)) (NdArray (v0 :: vs))
            None title PyNone (StyleObj st) w)
     = Raise (AttributeError "'NoneType' object has no attribute 'set_xlabel'")).
Proof.
  split; [|split].
  - intros time_series voltage_series title axis style st w Hst Hsb.
    unfold plot_trace. rewrite Hst, bind_lift_ok.
    revert w.
    match goal with |- forall w, exists e, fst (?m w) = Raise e =>
      change (always_raises m) end.
    ar.
  - intros t0 ts v0 vs title st w Hsb.
    rewrite (plot_trace_voltage_only_no_scale_bars t0 ts v0 vs title st w Hsb).
    destruct (subplots mpl 1 (compute_figsize 1 title st)) as [[]|what];
      [|eexists; split; [reflexivity | right; eexists; reflexivity]].
    destruct (plot mpl _) as [[]|what];
      [|eexists; split; [reflexivity | right; eexists; reflexivity]].
    destruct (set_lim mpl t0 _) as [xlim|what];
      [|eexists; split; [reflexivity | right; eexists; reflexivity]].
    destruct (set_lim mpl _ _) as [ylim|what];
      [|eexists; split; [reflexivity | right; eexists; reflexivity]].
    eexists; split; [reflexivity | left; reflexivity].
  - intros t0 ts v0 vs title st w xlim ylim Hsb Hfig Hplot Hx Hy.
    rewrite (plot_trace_voltage_only_no_scale_bars t0 ts v0 vs title st w Hsb),
      Hfig, Hplot, Hx, Hy.
    reflexivity.
Qed.

End PlotFacts.

(* ================================================================== *)
(** * The selected lengths are nearest to their targets *)

Section PyMinLeast.
Context {A K : Type}.
Variable lt : K -> K -> bool.
Variable key : A -> K.
Hypothesis lt_trans : forall a b c, lt a b = true -> lt b c = true -> lt a c = true.
Hypothesis lt_irrefl : forall a, lt a a = false.

(** No item has a key strictly below the key of the item [min] returns. *)
Lemma py_min_from_least (rest : list A) :
  forall best seen,
    (forall p, In p seen -> lt (key p) (key best) = false) ->
    forall p, In p (seen ++ best :: rest)%list ->
      lt (key p) (key (py_min_from lt key best rest)) = false.
Proof.
  induction rest as [|x rest IH]; intros best seen Hseen p Hp; cbn [py_min_from].
  - rewrite in_app_iff in Hp. destruct Hp as [Hp|[->|[]]]; [auto | apply lt_irrefl].
  - destruct (lt (key x) (key best)) eqn:Hx.
    + apply (IH x (seen ++ [best])%list).
      * intros q Hq. rewrite in_app_iff in Hq. destruct Hq as [Hq|[->|[]]].
        -- destruct (lt (key q) (key x)) eqn:Hqx; [|reflexivity].
           rewrite <- (Hseen q Hq). symmetry. eapply lt_trans; eauto.
        -- destruct (lt (key q) (key x)) eqn:Hqx; [|reflexivity].
           rewrite <- (lt_irrefl (key q)). symmetry. eapply lt_trans; eauto.
      * rewrite <- app_assoc. exact Hp.
    + apply (IH best (x :: seen)).
      * intros q [->|Hq]; [exact Hx | auto].
      * rewrite in_app_iff in Hp. cbn [In] in Hp. rewrite in_app_iff. cbn [In].
        tauto.
Qed.

Lemma py_min_least (l : list A) (r : A) :
  py_min lt key l = Some r ->
  forall p, In p l -> lt (key p) (key r) = false.
Proof.
  destruct l as [|x rest]; cbn [py_min]; intros E; [discriminate|].
  injection E as <-. intros p Hp.
  apply (py_min_from_least rest x []); [intros q [] | exact Hp].
Qed.

(** When no key is below another, [min] returns the first item. *)
Lemma py_min_from_all_tied (rest : list A) (best : A) :
  (forall x, In x rest -> lt (key x) (key best) = false) ->
  py_min_from lt key best rest = best.
Proof.
  induction rest as [|x rest IH]; intros H; cbn [py_min_from]; [reflexivity|].
  rewrite (H x (or_introl eq_refl)). apply IH. intros y Hy. apply H. right. exact Hy.
Qed.
End PyMinLeast.

Lemma Qltb_lt (a b : Q) : Qltb a b = true <-> (a < b)%Q.
Proof.
  unfold Qltb. rewrite Qlt_alt. destruct (a ?= b)%Q; split; intros; congruence.
Qed.

Lemma Qltb_trans (a b c : Q) : Qltb a b = true -> Qltb b c = true -> Qltb a c = true.
Proof. rewrite !Qltb_lt. apply Qlt_trans. Qed.

Lemma Qltb_irrefl (a : Q) : Qltb a a = false.
Proof.
  destruct (Qltb a a) eqn:E; [|reflexivity].
  apply Qltb_lt in E. exfalso. exact (Qlt_irrefl a E).
Qed.

(** X1.  The lengths [compute_scale_bar_length] selects are nearest to
    their target lengths: in binary64 no candidate of the list used is at a
    strictly smaller distance from the target than the selected one, and in
    exact arithmetic the distance of the selected one is at most that of
    every candidate. *)
Theorem compute_scale_bar_length_nearest :
  (forall (axis : Axes float) (is_current : bool) (bar_length : float),
     exists t v,
       compute_scale_bar_length axis is_current bar_length = Some (t, v) /\
       (forall c, In c valid_time_bar_length ->
          (distance_to (time_target axis bar_length) c
           <? distance_to (time_target axis bar_length) t)%float = false) /\
       (forall c, In c (valid_IV_bar_length is_current) ->
          (distance_to (IV_target axis bar_length) c
           <? distance_to (IV_target axis bar_length) v)%float = false)) /\
  (forall (axis : Axes Q) (is_current : bool) (bar_length : Q),
     exists t v,
       compute_scale_bar_length axis is_current bar_length = Some (t, v) /\
       (forall c, In c valid_time_bar_length ->
          (Qabs (to_float t - time_target axis bar_length)
           <= Qabs (to_float c - time_target axis bar_length))%Q) /\
       (forall c, In c (valid_IV_bar_length is_current) ->
          (Qabs (to_float v - IV_target axis bar_length)
           <= Qabs (to_float c - IV_target axis bar_length))%Q)).
Proof.
  split.
  - intros axis is_current bar_length.
    destruct (compute_scale_bar_length_In float binary64 axis is_current bar_length)
      as (t & v & E & _ & _).
    exists t, v. split; [exact E|].
    rewrite compute_scale_bar_length_eq in E.
    destruct (py_min fltb (distance_to (time_target axis bar_length)) valid_time_bar_length)
      as [t'|] eqn:Et; [|discriminate].
    destruct (py_min fltb (distance_to (IV_target axis bar_length))
                (valid_IV_bar_length is_current)) as [v'|] eqn:Ev; [|discriminate].
    injection E as -> ->. split; intros c Hc.
    + exact (@py_min_least _ _ PrimFloat.ltb _ ltb_trans ltb_irrefl _ _ Et c Hc).
    + exact (@py_min_least _ _ PrimFloat.ltb _ ltb_trans ltb_irrefl _ _ Ev c Hc).
  - intros axis is_current bar_length.
    destruct (compute_scale_bar_length_In Q exact axis is_current bar_length)
      as (t & v & E & _ & _).
    exists t, v. split; [exact E|].
    rewrite compute_scale_bar_length_eq in E.
    destruct (py_min fltb (distance_to (time_target axis bar_length)) valid_time_bar_length)
      as [t'|] eqn:Et; [|discriminate].
    destruct (py_min fltb (distance_to (IV_target axis bar_length))
                (valid_IV_bar_length is_current)) as [v'|] eqn:Ev; [|discriminate].
    injection E as -> ->. split; intros c Hc.
    + pose proof (@py_min_least _ _ Qltb _ Qltb_trans Qltb_irrefl _ _ Et c Hc) as H.
      apply Qnot_lt_le. intros Hlt. apply Qltb_lt in Hlt.
      unfold distance_to in H. cbn [fltb fabs fsub exact] in H. congruence.
    + pose proof (@py_min_least _ _ Qltb _ Qltb_trans Qltb_irrefl _ _ Ev c Hc) as H.
      apply Qnot_lt_le. intros Hlt. apply Qltb_lt in Hlt.
      unfold distance_to in H. cbn [fltb fabs fsub exact] in H. congruence.
Qed.

(** A float that is not finite is a NaN or an infinity. *)
Lemma not_finite_SF (x : float) :
  is_finite x = false ->
  Prim2SF x = S754_nan \/ exists s, Prim2SF x = S754_infinity s.
Proof.
  unfold is_finite, is_nan, is_infinity. intros H.
  apply negb_false_iff, orb_true_iff in H.
  rewrite negb_true_iff, !FloatAxioms.eqb_spec, abs_spec in H.
  change (Prim2SF infinity) with (S754_infinity false) in H.
  destruct (Prim2SF x) as [s|s| |s m e]; [| right; exists s; reflexivity | left; reflexivity |].
  - destruct H as [H|H]; cbn in H; discriminate.
  - destruct H as [H|H].
    + unfold SFeqb in H. rewrite SFcompare_finite in H.
      assert (Em : mag_compare e m e m = Eq) by (apply mag_compare_eq; split; reflexivity).
      rewrite Em in H. destruct s; discriminate.
    + cbn in H. discriminate.
Qed.

(** The distance of a finite number from a target that is not finite is a
    NaN or plus infinity, and so is not below any other such distance. *)
Lemma distance_to_not_finite (target : float) (c c' : pynum float) :
  is_finite target = false ->
  is_finite (to_float c) = true -> is_finite (to_float c') = true ->
  (distance_to target c <? distance_to target c')%float = false.
Proof.
  intros Ht Hc Hc'.
  assert (Hkey : forall x : float,
             is_finite x = true ->
             Prim2SF (abs (x - target)) = S754_nan \/
             Prim2SF (abs (x - target)) = S754_infinity false).
  { intros x Hx. rewrite abs_spec, sub_spec.
    destruct (Prim2SF x) as [s|s| |s m e] eqn:Ex.
    - destruct (not_finite_SF target Ht) as [->|[s' ->]]; [left|right]; reflexivity.
    - exfalso. unfold is_finite, is_nan, is_infinity in Hx.
      rewrite !FloatAxioms.eqb_spec, abs_spec, Ex in Hx.
      change (Prim2SF infinity) with (S754_infinity false) in Hx.
      destruct s; cbn in Hx; discriminate.
    - exfalso. unfold is_finite, is_nan in Hx.
      rewrite !FloatAxioms.eqb_spec, Ex in Hx. cbn in Hx. discriminate.
    - destruct (not_finite_SF target Ht) as [->|[s' ->]]; [left|right]; reflexivity. }
  unfold distance_to. cbn [fabs fsub binary64]. rewrite ltb_spec.
  destruct (Hkey _ Hc) as [-> | ->], (Hkey _ Hc') as [-> | ->]; reflexivity.
Qed.

Lemma py_min_not_finite (target : float) (x : pynum float) (rest : list (pynum float)) :
  is_finite target = false ->
  forallb (fun c => is_finite (to_float c)) (x :: rest) = true ->
  py_min fltb (distance_to target) (x :: rest) = Some x.
Proof.
  intros Ht Hall. rewrite forallb_forall in Hall. cbn [py_min]. f_equal.
  apply py_min_from_all_tied. intros c Hc.
  apply distance_to_not_finite; [exact Ht | apply Hall; right; exact Hc | apply Hall; left; reflexivity].
Qed.

(** X2.  When a target length is not finite (the limits hold a NaN or an
    infinity, or their difference overflows), every distance is a NaN or
    infinite, no candidate is below another, and [min] returns the first
    candidate of the list: 0.1 for time and voltage, 0.001 for current. *)
Theorem compute_scale_bar_length_not_finite :
  (forall (axis : Axes float) (is_current : bool) (bar_length : float),
     is_finite (time_target axis bar_length) = false ->
     exists v, compute_scale_bar_length axis is_current bar_length
               = Some (PyFloat 0.1%float, v)) /\
  (forall (axis : Axes float) (is_current : bool) (bar_length : float),
     is_finite (IV_target axis bar_length) = false ->
     exists t, compute_scale_bar_length axis is_current bar_length
               = Some (t, PyFloat (if is_current then 0.001 else 0.1)%float)).
Proof.
  split; intros axis is_current bar_length Ht; rewrite compute_scale_bar_length_eq.
  - unfold valid_time_bar_length at 1.
    rewrite (py_min_not_finite _ _ _ Ht) by (vm_compute; reflexivity).
    destruct is_current; cbn [valid_IV_bar_length valid_current_bar_length
      valid_voltage_bar_length py_min]; eexists; reflexivity.
  - destruct is_current; cbn [valid_IV_bar_length];
      [unfold valid_current_bar_length | unfold valid_voltage_bar_length];
      rewrite (py_min_not_finite _ _ _ Ht) by (vm_compute; reflexivity);
      cbn [valid_time_bar_length py_min]; eexists; reflexivity.
Qed.

(* ================================================================== *)
(** * What [format_float] returns *)

Lemma string_of_uint_length (d : Init.Decimal.uint) :
  String.length (NilEmpty.string_of_uint d) = Init.Decimal.nb_digits d.
Proof. induction d; cbn; congruence. Qed.

Lemma of_lu_bound (d : Init.Decimal.uint) :
  (DecimalPos.Unsigned.of_lu d < 10 ^ N.of_nat (Init.Decimal.nb_digits d))%N.
Proof.
  induction d; cbn [DecimalPos.Unsigned.of_lu Init.Decimal.nb_digits];
    rewrite ?Nnat.Nat2N.inj_succ, ?N.pow_succ_r'; cbn [N.of_nat N.pow]; lia.
Qed.

(** A number is below the power of ten of its number of digits. *)
Lemma N_lt_pow10_length (n : N) :
  (n < 10 ^ N.of_nat (String.length (N_to_string n)))%N.
Proof.
  unfold N_to_string. rewrite string_of_uint_length.
  rewrite <- (DecimalN.Unsigned.of_to n) at 1.
  unfold N.of_uint. rewrite DecimalPos.Unsigned.of_uint_alt.
  rewrite <- (DecimalFacts.nb_digits_rev (N.to_uint n)).
  apply of_lu_bound.
Qed.

(** [strip] removes every trailing zero and keeps the value. *)
Lemma strip_spec (fuel : nat) :
  forall (c : N) (e : Z),
    c <> 0%N -> (c < 10 ^ N.of_nat fuel)%N ->
    let (c', e') := Decimal.strip fuel c e in
    (c' mod 10 <> 0)%N /\ c' <> 0%N /\ (e <= e')%Z /\
    c = (c' * Z.to_N (10 ^ (e' - e)))%N.
Proof.
  induction fuel as [|fuel IH]; intros c e Hc Hlt.
  - cbn in Hlt. lia.
  - cbn [Decimal.strip]. destruct (c mod 10 =? 0)%N eqn:Hmod.
    + apply N.eqb_eq in Hmod.
      assert (Hdiv : c = (10 * (c / 10))%N).
      { rewrite (N.div_mod c 10) at 1 by lia. lia. }
      assert (Hc10 : (c / 10)%N <> 0%N) by lia.
      assert (Hlt' : (c / 10 < 10 ^ N.of_nat fuel)%N).
      { rewrite Nnat.Nat2N.inj_succ, N.pow_succ_r' in Hlt. lia. }
      specialize (IH (c / 10)%N (e + 1)%Z Hc10 Hlt').
      destruct (Decimal.strip fuel (c / 10) (e + 1)) as [c' e'].
      destruct IH as (H1 & H2 & H3 & H4).
      split; [exact H1|]. split; [exact H2|]. split; [lia|].
      rewrite Hdiv, H4.
      replace (e' - e)%Z with (Z.succ (e' - (e + 1)))%Z by lia.
      rewrite Z.pow_succ_r by lia. rewrite Z2N.inj_mul by lia.
      change (Z.to_N 10) with 10%N. lia.
    + apply N.eqb_neq in Hmod.
      split; [exact Hmod|]. split; [exact Hc|]. split; [lia|].
      rewrite Z.sub_diag. cbn. lia.
Qed.

(** The decimals that [quantize] to [Decimal(1)] returns have exponent 0. *)
Lemma quantize_one_exponent (d : Decimal.t) (s : bool) (c : N) (e : Z) :
  Decimal.quantize d (Decimal.Finite false 1 0) = Ok (Decimal.Finite s c e) -> e = 0%Z.
Proof.
  unfold Decimal.quantize, Decimal.rescale. destruct d as [s0 c0 e0|s0|s0]; [|discriminate|discriminate].
  repeat break_match; intros H; try discriminate; injection H as _ _ <-; reflexivity.
Qed.

Lemma normalize_no_trailing_zero (d : Decimal.t) (s : bool) (c : N) (e : Z) :
  Decimal.normalize d = Decimal.Finite s c e ->
  (c = 0%N /\ e = 0%Z) \/ (c mod 10 <> 0)%N.
Proof.
  unfold Decimal.normalize. destruct (Decimal.fix_ d) as [s0 c0 e0|s0|s0]; [|discriminate|discriminate].
  destruct (c0 =? 0)%N eqn:Hc0.
  - intros H. injection H as _ <- <-. left. split; reflexivity.
  - apply N.eqb_neq in Hc0.
    pose proof (strip_spec (Z.to_nat (Decimal.ndigits c0)) c0 e0 Hc0) as Hs.
    unfold Decimal.ndigits in Hs. rewrite Nat2Z.id in Hs.
    specialize (Hs (N_lt_pow10_length c0)).
    unfold Decimal.ndigits. rewrite Nat2Z.id.
    destruct (Decimal.strip (String.length (N_to_string c0)) c0 e0) as [c' e'].
    intros H. injection H as _ <- <-. right. apply Hs.
Qed.

(** X3.  A finite decimal that [format_float] returns has no trailing zero
    to strip: its exponent is 0 (an integer, written without exponent), or
    its coefficient does not end in the digit 0. *)
Theorem format_float_no_trailing_zero :
  forall (x : pynum float) (s : bool) (c : N) (e : Z),
    format_float x = Ok (Decimal.Finite s c e) ->
    e = 0%Z \/ (c mod 10 <> 0)%N.
Proof.
  intros x s c e. unfold format_float.
  destruct (Decimal.of_string (py_str x)) as [d|err]; [|discriminate].
  destruct (Decimal.eqb d (Decimal.to_integral d)).
  - intros H. left. exact (quantize_one_exponent d s c e H).
  - intros H. injection H as H.
    destruct (normalize_no_trailing_zero d s c e H) as [[_ He]|Hc]; [left|right]; assumption.
Qed.

(** ** Integers *)












(** ** The value of the result *)

Lemma strip_value (c : N) (e : Z) :
  c <> 0%N ->
  let (c', e') := Decimal.strip (Z.to_nat (Decimal.ndigits c)) c e in
  (e <= e')%Z /\ c = (c' * Z.to_N (10 ^ (e' - e)))%N.
Proof.
  intros Hc.
  pose proof (strip_spec (Z.to_nat (Decimal.ndigits c)) c e Hc) as Hs.
  unfold Decimal.ndigits in *. rewrite Nat2Z.id in *.
  specialize (Hs (N_lt_pow10_length c)).
  destruct (Decimal.strip (String.length (N_to_string c)) c e) as [c' e'].
  split; apply Hs.
Qed.

Lemma eqb_finite (s : bool) (c c' : N) (e e' : Z) :
  (e <= e')%Z -> c = (c' * Z.to_N (10 ^ (e' - e)))%N ->
  Decimal.eqb (Decimal.Finite s c e) (Decimal.Finite s c' e') = true.
Proof.
  intros He Hc. unfold Decimal.eqb.
  destruct ((c =? 0)%N && (c' =? 0)%N); [reflexivity|].
  rewrite Bool.eqb_reflx, Z.min_l by exact He. cbn [andb].
  rewrite Z.sub_diag. change (Z.to_N (10 ^ 0)) with 1%N. rewrite N.mul_1_r.
  apply N.eqb_eq. exact Hc.
Qed.

(** X5.  [format_float] changes the writing of a number, not its value: when
    [Decimal(str(f))] is a finite decimal of at most 28 digits (the precision
    of the context, which [str] of a float stays below), the decimal
    returned is equal to it as a number. *)
Theorem format_float_keeps_value :
  forall (x : pynum float) (s : bool) (c : N) (e : Z) (r : Decimal.t),
    Decimal.of_string (py_str x) = Ok (Decimal.Finite s c e) ->
    (Decimal.ndigits c <= Decimal.prec)%Z ->
    format_float x = Ok r ->
    Decimal.eqb (Decimal.Finite s c e) r = true.
Proof.
  intros x s c e r Hd Hprec. unfold format_float. rewrite Hd.
  destruct (Decimal.eqb (Decimal.Finite s c e) (Decimal.to_integral (Decimal.Finite s c e)))
    eqn:Hint.
  - unfold Decimal.quantize.
    destruct (c =? 0)%N eqn:Hc.
    + intros H. injection H as <-. unfold Decimal.eqb. rewrite Hc. reflexivity.
    + destruct (Decimal.prec <? Decimal.ndigits c + e - 0)%Z; [discriminate|].
      cbn [Decimal.to_integral] in Hint.
      destruct (0 <=? e)%Z eqn:He.
      * unfold Decimal.rescale. rewrite Hc, He.
        destruct (Decimal.prec <? _)%Z; [discriminate|].
        intros H. injection H as <-.
        apply Z.leb_le in He. unfold Decimal.eqb. rewrite Hc. cbn [andb].
        rewrite Bool.eqb_reflx, Z.min_r by exact He. cbn [andb].
        rewrite Z.sub_diag. change (Z.to_N (10 ^ 0)) with 1%N. rewrite N.mul_1_r.
        apply N.eqb_refl.
      * destruct (Decimal.rescale s c e 0) as [s' c' e'|s'|s'].
        -- destruct (Decimal.prec <? Decimal.ndigits c')%Z; [discriminate|].
           intros H. injection H as <-. exact Hint.
        -- intros H. injection H as <-. exact Hint.
        -- intros H. injection H as <-. exact Hint.
  - intros H. injection H as <-.
    unfold Decimal.normalize, Decimal.fix_.
    replace (Decimal.prec <? Decimal.ndigits c)%Z with false
      by (symmetry; apply Z.ltb_ge; exact Hprec).
    destruct (c =? 0)%N eqn:Hc.
    + unfold Decimal.eqb. rewrite Hc. reflexivity.
    + apply N.eqb_neq in Hc. pose proof (strip_value c e Hc) as Hs.
      destruct (Decimal.strip (Z.to_nat (Decimal.ndigits c)) c e) as [c' e'].
      apply eqb_finite; apply Hs.
Qed.

(** ** Floats that are not finite *)

Lemma is_nan_SF (x : float) :
  is_nan x = match Prim2SF x with S754_nan => true | _ => false end.
Proof.
  unfold is_nan. rewrite FloatAxioms.eqb_spec.
  destruct (Prim2SF x) as [s|s| |s m e]; try reflexivity.
  - destruct s; reflexivity.
  - unfold SFeqb. rewrite SFcompare_finite.
    assert (Em : mag_compare e m e m = Eq) by (apply mag_compare_eq; split; reflexivity).
    rewrite Em. destruct s; reflexivity.
Qed.

(** X6.  On a float that is not finite, [format_float] returns the decimal
    NaN for a NaN and raises [decimal.InvalidOperation] for an infinity:
    an infinity equals its integral value and cannot be quantized. *)
Theorem format_float_not_finite :
  forall f : float,
    is_finite f = false ->
    if is_nan f then format_float (PyFloat f) = Ok (Decimal.NaN false)
    else exists msg, format_float (PyFloat f) = Raise (InvalidOperation msg).
Proof.
  intros f Hf. rewrite is_nan_SF.
  unfold format_float, py_str, float_repr.
  destruct (not_finite_SF f Hf) as [-> | [s ->]]; [reflexivity|].
  destruct s; eexists; reflexivity.
Qed.

(* ================================================================== *)
(** * The effect of drawing the scale bars *)

Section DrawEffect.
Variables ExploreStyle PaperStyle : Style.
Variable mpl : Matplotlib.

(** On an axes object whose two bars matplotlib accepts, [draw_scale_bars]
    returns, or raises when a measurement fails; either way the axes object
    then holds the two bars and the two labels, and nothing else has
    changed. *)
Lemma draw_scale_bars_run (a : nat) (is_current : bool) (st : Style) (w : World)
    (t v : pynum float) (dt dv : Decimal.t) :
  compute_scale_bar_length (axes_of w a) is_current 0.15%float = Some (t, v) ->
  format_float t = Ok dt -> format_float v = Ok dv ->
  let ax := axes_of w a in
  let origin := compute_scale_bar_position ax t is_current in
  let bar_t := mkLine [fst origin; (fst origin + to_float t)%float]
                      [snd origin; snd origin] "black" None (Some 1%float) false in
  let bar_v := mkLine [fst origin; fst origin]
                      [snd origin; (snd origin + to_float v)%float]
                      "black" None (Some 1%float) false in
  plot mpl bar_t = Returns tt -> plot mpl bar_v = Returns tt ->
  exists r p q w',
    draw_scale_bars ExploreStyle PaperStyle mpl (AxesObj a) is_current (StyleObj st) w
    = (r, w') /\
    axes_of w' a
    = mkAxes (get_xlim ax) (get_ylim ax) (ax_lines ax ++ [bar_t; bar_v])%list
        (ax_texts ax ++
         [mkText p (Decimal.to_string dt ++ " ms") "center" "bottom"
                 (scale_bars_fontsize st);
          mkText q (Decimal.to_string dv ++ (if is_current then " nA" else " mV"))
                 "left" "center" (scale_bars_fontsize st)])%list
        (ax_spines_visible ax) (ax_xticks ax) (ax_yticks ax)
        (ax_xlabel ax) (ax_ylabel ax) (ax_figure ax) /\
    (forall b, b <> a -> axes_of w' b = axes_of w b) /\
    figure_of w' = figure_of w /\
    next_axes w' = next_axes w /\ next_figure w' = next_figure w.
Proof.
  intros E Edt Edv ax origin bar_t bar_v Hbar_t Hbar_v.
  destruct (draw_scale_bars_adds_labels ExploreStyle PaperStyle mpl a is_current st w
              t v dt dv E Edt Edv Hbar_t Hbar_v)
    as (w1 & Hdraw & Hax & Hother & Hfig & Hna & Hnf).
  cbv zeta in Hdraw, Hax. fold ax origin bar_t bar_v in Hdraw, Hax.
  rewrite Hdraw. run.
  destruct (window_extent mpl w1 (a, List.length (ax_texts ax))) as [bb_t|what].
  2:{ exists (Raise (LibraryError what)), origin, origin, w1.
      split; [reflexivity|]. split; [exact Hax|]. auto. }
  cbv beta iota zeta.
  match goal with
  | |- context [window_extent mpl ?W (a, S ?k)] =>
      destruct (window_extent mpl W (a, S k)) as [bb_d|what]
  end.
  all: do 4 eexists; (split; [reflexivity|]);
    cbn [axes_of figure_of next_axes next_figure];
    (split;
     [ rewrite !update_same, Hax; cbn [ax_texts with_texts];
       rewrite ?list_update_app_here; cbn [ax_texts with_texts];
       rewrite ?list_update_app_next;
       unfold with_texts, move_text;
       cbn [ax_texts ax_lines get_xlim get_ylim ax_spines_visible ax_xticks ax_yticks
            ax_xlabel ax_ylabel ax_figure text_str text_ha text_va text_fontsize];
       reflexivity
     | split; [|auto];
       intros b Hb; unfold update; pose proof Hb as Hb'; apply Nat.eqb_neq in Hb';
       rewrite ?Hb'; apply Hother; exact Hb ]).
Qed.

(** X7.  On an axes object whose two bars matplotlib accepts,
    [draw_scale_bars] appends two lines to the lines of the axes: a
    horizontal one from the bar origin to the origin shifted right by the
    time length, and a vertical one from the origin to the origin shifted up
    by the dependent length, both black, of width 1 and not clipped.
    Lengths and origin are those computed from the view limits the axes had
    on entry.  The bars stay when a later measurement of a label fails and
    the call raises. *)
Theorem draw_scale_bars_draws_the_bars :
  forall (a : nat) (is_current : bool) (st : Style) (w : World) (t v : pynum float),
    compute_scale_bar_length (axes_of w a) is_current 0.15%float = Some (t, v) ->
    let origin := compute_scale_bar_position (axes_of w a) t is_current in
    let bar_t := mkLine [fst origin; (fst origin + to_float t)%float]
                        [snd origin; snd origin] "black" None (Some 1%float) false in
    let bar_v := mkLine [fst origin; fst origin]
                        [snd origin; (snd origin + to_float v)%float]
                        "black" None (Some 1%float) false in
    plot mpl bar_t = Returns tt -> plot mpl bar_v = Returns tt ->
    exists r w',
      draw_scale_bars ExploreStyle PaperStyle mpl
        (AxesObj a) is_current (StyleObj st) w = (r, w') /\
      ax_lines (axes_of w' a) = (ax_lines (axes_of w a) ++ [bar_t; bar_v])%list.
Proof.
  intros a is_current st w t v E origin bar_t bar_v Hbar_t Hbar_v.
  destruct (@compute_scale_bar_length_In float binary64 (axes_of w a) is_current
              0.15%float) as (t0 & v0 & E0 & Ht & Hv).
  rewrite E in E0. injection E0 as <- <-.
  destruct (format_float_time t Ht) as [dt Edt].
  destruct (format_float_IV is_current v Hv) as [dv Edv].
  destruct (draw_scale_bars_run a is_current st w t v dt dv E Edt Edv Hbar_t Hbar_v)
    as (r & p & q & w' & Hrun & Hax & _).
  exists r, w'. split; [exact Hrun|].
  cbv zeta in Hax. rewrite Hax. reflexivity.
Qed.

(** X8.  On an axes object whose two bars matplotlib accepts,
    [draw_scale_bars] adds two labels: they read one of the fourteen time
    lengths followed by " ms", and one of the current lengths followed by
    " nA" or one of the voltage lengths followed by " mV"; the numbers are
    written without exponent and without trailing zeros.  The texts that
    were on the axes stay in place before them.  The labels are there when
    the call returns and when a measurement fails and it raises. *)
Theorem draw_scale_bars_label_texts :
  forall (a : nat) (is_current : bool) (st : Style) (w : World) (t v : pynum float),
    compute_scale_bar_length (axes_of w a) is_current 0.15%float = Some (t, v) ->
    let origin := compute_scale_bar_position (axes_of w a) t is_current in
    plot mpl (mkLine [fst origin; (fst origin + to_float t)%float]
                     [snd origin; snd origin] "black" None (Some 1%float) false)
    = Returns tt ->
    plot mpl (mkLine [fst origin; fst origin]
                     [snd origin; (snd origin + to_float v)%float]
                     "black" None (Some 1%float) false)
    = Returns tt ->
    exists n u p q r w',
      draw_scale_bars ExploreStyle PaperStyle mpl
        (AxesObj a) is_current (StyleObj st) w = (r, w') /\
      In n ["0.1"; "0.5"; "1"; "2"; "5"; "10"; "20"; "50"; "100"; "200"; "500";
            "1000"; "2000"; "5000"] /\
      In u (if is_current
            then ["0.001"; "0.005"; "0.01"; "0.05"; "0.1"; "0.5"; "1"; "5"; "10"; "50"]
            else ["0.1"; "0.5"; "1"; "2"; "5"; "10"; "20"; "50"; "100"]) /\
      texts_of w' a
      = (texts_of w a ++
         [mkText p (n ++ " ms") "center" "bottom" (scale_bars_fontsize st);
          mkText q (u ++ (if is_current then " nA" else " mV")) "left" "center"
                 (scale_bars_fontsize st)])%list.
Proof.
  intros a is_current st w t v E origin Hbar_t Hbar_v.
  destruct (@compute_scale_bar_length_In float binary64 (axes_of w a) is_current
              0.15%float) as (t0 & v0 & E0 & Ht & Hv).
  rewrite E in E0. injection E0 as <- <-.
  destruct (format_float_time t Ht) as [dt Edt].
  destruct (format_float_IV is_current v Hv) as [dv Edv].
  destruct (draw_scale_bars_run a is_current st w t v dt dv E Edt Edv Hbar_t Hbar_v)
    as (r & p & q & w' & Hrun & Hax & _).
  exists (Decimal.to_string dt), (Decimal.to_string dv), p, q, r, w'.
  split; [exact Hrun|].
  assert (Hlabel : forall (l : list (pynum float)) (names : list string) x d,
             map label_number l = map Some names ->
             In x l -> format_float x = Ok d -> In (Decimal.to_string d) names).
  { intros l names x d Hmap Hx Hd.
    apply (in_map label_number) in Hx. rewrite Hmap in Hx.
    apply in_map_iff in Hx. destruct Hx as (name & Hname & Hin).
    unfold label_number in Hname. rewrite Hd in Hname.
    injection Hname as <-. exact Hin. }
  split; [exact (Hlabel _ _ t dt label_number_time Ht Edt)|].
  split.
  - destruct is_current.
    + exact (Hlabel _ _ v dv label_number_current Hv Edv).
    + exact (Hlabel _ _ v dv label_number_voltage Hv Edv).
  - unfold texts_of. cbv zeta in Hax. rewrite Hax. reflexivity.
Qed.

(** X9.  [draw_scale_bars] resolves the style before it touches the axis:
    with an unknown style name it raises [ValueError] whatever the axis is,
    and with a style that resolves but an [axis] that is not an axes object
    (None, a list, an array) it raises the [AttributeError] of the call
    [axis.get_xlim()].  In both cases nothing has been drawn. *)
Theorem draw_scale_bars_failures :
  (forall (axis : pyobj) (is_current : bool) (name : string) (w : World),
     name <> "explore" -> name <> "paper" ->
     draw_scale_bars ExploreStyle PaperStyle mpl axis is_current
       (StyleName name) w
     = (Raise (ValueError ("Unknown style: " ++ name)), w)) /\
  (forall (axis : pyobj) (is_current : bool) (style : style_arg) (st : Style) (w : World),
     define_style ExploreStyle PaperStyle style = Ok st ->
     (forall a, axis <> AxesObj a) ->
     draw_scale_bars ExploreStyle PaperStyle mpl axis is_current style w
     = (Raise (AttributeError ("'" ++ type_name axis
                               ++ "' object has no attribute 'get_xlim'")), w)).
Proof.
  split.
  - intros axis is_current name w Hexplore Hpaper.
    apply String.eqb_neq in Hexplore, Hpaper.
    unfold draw_scale_bars, define_style. rewrite Hexplore, Hpaper. reflexivity.
  - intros axis is_current style st w Hst Haxis.
    unfold draw_scale_bars. rewrite Hst, bind_lift_ok.
    destruct axis as [|a|l|l]; try reflexivity.
    exfalso. exact (Haxis a eq_refl).
Qed.

End DrawEffect.

(* ================================================================== *)
(** * Hiding the spines *)

(** X10.  [hide_spines] on an axes object returns, and calling it a second
    time changes nothing more; on a value that is not an axes object it
    raises the [AttributeError] of [axis.spines] and changes nothing. *)
Theorem hide_spines_idempotent :
  (forall (a : nat) (w : World),
     let once := hide_spines (AxesObj a) w in
     let twice := hide_spines (AxesObj a) (snd once) in
     fst once = Ok tt /\ fst twice = Ok tt /\ same_objects (snd twice) (snd once)) /\
  (forall (axis : pyobj) (w : World),
     (forall a, axis <> AxesObj a) ->
     hide_spines axis w
     = (Raise (AttributeError ("'" ++ type_name axis
                               ++ "' object has no attribute 'spines'")), w)).
Proof.
  split.
  - intros a w once twice. subst once twice.
    split; [reflexivity|]. split; [reflexivity|].
    unfold same_objects, hide_spines. run.
    split; [|auto]. intros b. unfold update.
    destruct (Nat.eqb b a); [|reflexivity].
    rewrite Nat.eqb_refl. reflexivity.
  - intros axis w Haxis.
    destruct axis as [|a|l|l]; try reflexivity.
    exfalso. exact (Haxis a eq_refl).
Qed.

(* ================================================================== *)
(** * The arguments that [plot_trace] accepts *)

Lemma always_raises_not_ok {A} (m : M A) (w : World) (r : A) :
  always_raises m -> fst (m w) = Ok r -> False.
Proof. intros Hm H. destruct (Hm w) as [e He]. congruence. Qed.

Lemma ar_series_getitem_empty (s : series) (i : Z) :
  series_values s = [] -> always_raises (series_getitem s i).
Proof.
  intros Hs w. unfold series_getitem, list_getitem. rewrite Hs.
  cbn [List.length Z.of_nat Z.add].
  destruct (0 <=? i)%Z eqn:Hi.
  - destruct (Z.to_nat i); eexists; reflexivity.
  - replace (0 <=? 0 + i)%Z with false by (symmetry; apply Z.leb_gt; apply Z.leb_gt in Hi; lia).
    eexists; reflexivity.
Qed.

Lemma ar_series_min_list (l : list float) : always_raises (series_min (PyList l)).
Proof. apply ar_raise. Qed.

Lemma ar_series_min_empty : always_raises (series_min (NdArray [])).
Proof. apply ar_raise. Qed.

Section PlotArguments.
Variables ExploreStyle PaperStyle : Style.
Variable mpl : Matplotlib.

Ltac ar_series :=
  cbv beta iota;
  first
    [ apply ar_raise
    | apply ar_series_min_list
    | apply ar_series_min_empty
    | apply ar_series_getitem_empty; assumption
    | match goal with
      | |- always_raises (let (_, _) := ?x in _) => destruct x; ar_series
      end
    | apply ar_bind_l; solve [ar_series]
    | apply ar_bind_r; intros ?; ar_series ].

(** X11.  [plot_trace] returns only when the time series is not empty and
    the voltage series, and the current series when one is given, are
    non-empty numpy arrays: a Python list of voltages or currents makes it
    raise, as [.min()] is called on it, and so does an empty array. *)
Theorem plot_trace_series_arguments :
  forall (time_series voltage_series : series) (current_series : option series)
         (title : option string) (axis : pyobj) (style : style_arg) (w : World)
         (r : nat * pyobj),
    fst (plot_trace ExploreStyle PaperStyle mpl time_series voltage_series
           current_series title axis style w) = Ok r ->
    series_values time_series <> [] /\
    (exists v0 vs, voltage_series = NdArray (v0 :: vs)) /\
    (forall cs, current_series = Some cs -> exists c0 cs', cs = NdArray (c0 :: cs')).
Proof.
  intros time_series voltage_series current_series title axis style w r Hok.
  split; [|split].
  - intros Hempty. revert Hok. apply always_raises_not_ok.
    unfold plot_trace. ar_series.
  - destruct voltage_series as [[|v0 vs]|l].
    + exfalso. revert Hok. apply always_raises_not_ok. unfold plot_trace. ar_series.
    + exists v0, vs. reflexivity.
    + exfalso. revert Hok. apply always_raises_not_ok. unfold plot_trace. ar_series.
  - intros cs ->. destruct cs as [[|c0 cs']|l].
    + exfalso. revert Hok. apply always_raises_not_ok. unfold plot_trace. ar_series.
    + exists c0, cs'. reflexivity.
    + exfalso. revert Hok. apply always_raises_not_ok. unfold plot_trace. ar_series.
Qed.

End PlotArguments.

Lemma ar_bind_assoc {A B C} (m : M A) (f : A -> M B) (g : B -> M C) :
  always_raises (bind m (fun x => bind (f x) g)) -> always_raises (bind (bind m f) g).
Proof.
  intros H w. specialize (H w). unfold bind in *.
  destruct (m w) as [[a|e] w1]; [|exact H].
  destruct (f a w1) as [[b|e] w2]; exact H.
Qed.

Lemma ar_as_axes_not_axes (attr : string) (o : pyobj) :
  (forall a, o <> AxesObj a) -> always_raises (as_axes attr o).
Proof.
  intros Ho. destruct o as [|a|l|l]; try apply ar_raise.
  exfalso. exact (Ho a eq_refl).
Qed.

Section PlotAxis.
Variables ExploreStyle PaperStyle : Style.
Variable mpl : Matplotlib.

Ltac ar_axis :=
  cbv beta iota;
  first
    [ apply ar_raise
    | match goal with
      | |- always_raises (let (_, _) := ?x in _) => destruct x; ar_axis
      | |- always_raises (if negb (Z.of_nat (List.length ?l) =? ?n)%Z then _ else _) =>
          destruct (Z.eqb_spec (Z.of_nat (List.length l)) n);
          cbn [negb]; first [ exfalso; cbn [List.length] in *; lia | ar_axis ]
      end
    | apply ar_bind_ret; ar_axis
    | apply ar_bind_assoc; ar_axis
    | apply ar_bind_l; solve [ar_axis]
    | apply ar_bind_r; intros ?; ar_axis ].

(** X12.  [plot_trace] returns only when [axis] is left to None, or is a
    list of exactly two axes while a current series is given and the style
    does not share the axis.  A single axes object raises the [TypeError] of
    [len(axis)]; an array of axes, and a list where one plot is drawn, pass
    the length check at best and then fail on a method the collection does
    not have. *)
Theorem plot_trace_axis_argument :
  forall (time_series voltage_series : series) (current_series : option series)
         (title : option string) (axis : pyobj) (style : style_arg) (st : Style)
         (w : World) (r : nat * pyobj),
    define_style ExploreStyle PaperStyle style = Ok st ->
    fst (plot_trace ExploreStyle PaperStyle mpl time_series voltage_series
           current_series title axis style w) = Ok r ->
    axis = PyNone \/
    exists a b, axis = PyListOf [a; b] /\ current_series <> None /\ shared_axis st = false.
Proof.
  intros time_series voltage_series current_series title axis style st w r Hst Hok.
  destruct axis as [|a|l|l]; [left; reflexivity| | |].
  - exfalso. revert Hok. apply always_raises_not_ok.
    unfold plot_trace. rewrite Hst. apply ar_bind_ret. ar_axis.
  - destruct current_series as [cs|]; destruct (shared_axis st) eqn:Hsh.
    4:{ exfalso. revert Hok. apply always_raises_not_ok.
        unfold plot_trace. rewrite Hst. apply ar_bind_ret. cbv beta. rewrite Hsh.
        change (get_n_plots 1 0 false) with 1%Z.
        destruct l as [|a [|b l]]; ar_axis. }
    3:{ exfalso. revert Hok. apply always_raises_not_ok.
        unfold plot_trace. rewrite Hst. apply ar_bind_ret. cbv beta. rewrite Hsh.
        change (get_n_plots 1 0 true) with 1%Z.
        destruct l as [|a [|b l]]; ar_axis. }
    1:{ exfalso. revert Hok. apply always_raises_not_ok.
        unfold plot_trace. rewrite Hst. apply ar_bind_ret. cbv beta. rewrite Hsh.
        change (get_n_plots 1 1 true) with 1%Z.
        destruct l as [|a [|b l]]; ar_axis. }
    destruct l as [|a [|b [|c l]]].
    3:{ right. exists a, b. split; [reflexivity|]. split; [discriminate | reflexivity]. }
    all: exfalso; revert Hok; apply always_raises_not_ok;
      unfold plot_trace; rewrite Hst; apply ar_bind_ret; cbv beta; rewrite Hsh;
      change (get_n_plots 1 1 false) with 2%Z; ar_axis.
  - exfalso. revert Hok. apply always_raises_not_ok.
    unfold plot_trace. rewrite Hst. apply ar_bind_ret. cbv beta.
    apply ar_bind_l. apply ar_bind_ret. cbv beta.
    destruct (negb _); [apply ar_raise|].
    apply ar_bind_l. apply ar_bind_l. apply ar_raise.
Qed.

End PlotAxis.

(* ================================================================== *)
(** * What [plot_trace] returns *)

Lemma ro_ret {A} (P : A -> Prop) (a : A) : P a -> returns_only P (ret a).
Proof. intros Ha w r w' H. injection H as <- _. exact Ha. Qed.

Lemma ro_bind {A B} (P : B -> Prop) (m : M A) (k : A -> M B) :
  (forall a, returns_only P (k a)) -> returns_only P (bind m k).
Proof.
  intros Hk w r w'. unfold bind.
  destruct (m w) as [[a|e] w1]; [apply Hk | discriminate].
Qed.

Lemma bind_ok_inv {A B} (m : M A) (k : A -> M B) (w w' : World) (r : B) :
  bind m k w = (Ok r, w') ->
  exists a w1, m w = (Ok a, w1) /\ k a w1 = (Ok r, w').
Proof.
  unfold bind. destruct (m w) as [[a|e] w1]; [|discriminate].
  intros H. exists a, w1. split; [reflexivity | exact H].
Qed.

Section PlotResult.
Variables ExploreStyle PaperStyle : Style.
Variable mpl : Matplotlib.

Ltac ro :=
  cbv beta iota;
  first
    [ apply ro_ret; reflexivity
    | match goal with
      | |- returns_only _ (let (_, _) := ?x in _) => destruct x; ro
      end
    | apply ro_bind; intros ?; ro ].

(** X13.  What [plot_trace] returns.  With no axis given it returns the
    figure that [plt.subplots] creates, with its axes: one axes object when
    one plot is drawn, an array of two when two are.  With a list of axes it
    returns that list, and the figure of the first axes of the list. *)
Theorem plot_trace_result :
  forall (time_series voltage_series : series) (current_series : option series)
         (title : option string) (axis : pyobj) (style : style_arg) (st : Style)
         (w : World) (fig : nat) (ax : pyobj),
    define_style ExploreStyle PaperStyle style = Ok st ->
    fst (plot_trace ExploreStyle PaperStyle mpl time_series voltage_series
           current_series title axis style w) = Ok (fig, ax) ->
    (axis = PyNone ->
     fig = next_figure w /\
     ax = if (get_n_plots 1 (n_current_series current_series) (shared_axis st) =? 1)%Z
          then AxesObj (next_axes w)
          else NdArrayOf [next_axes w; S (next_axes w)]) /\
    (forall a l, axis = PyListOf (a :: l) ->
       fig = ax_figure (axes_of w a) /\ ax = axis).
Proof.
  intros time_series voltage_series current_series title axis style st w fig ax Hst Hok.
  destruct (plot_trace ExploreStyle PaperStyle mpl time_series voltage_series
              current_series title axis style w) as [res w'] eqn:E.
  cbn [fst] in Hok. subst res.
  unfold plot_trace in E. rewrite Hst, bind_lift_ok in E.
  fold (n_current_series current_series) in E.
  apply bind_ok_inv in E. destruct E as ([fig0 axis0] & w1 & Hfirst & Hrest).
  assert (Hret : (fig, ax) = (fig0, axis0)).
  { revert Hrest.
    match goal with
    | |- ?k w1 = (Ok (fig, ax), w') -> _ =>
        assert (Hro : returns_only (fun r => r = (fig0, axis0)) k) by ro;
        exact (Hro w1 (fig, ax) w')
    end. }
  injection Hret as -> ->. clear Hrest.
  split.
  - intros ->. unfold plt_subplots in Hfirst.
    destruct current_series as [cs|]; destruct (shared_axis st);
      cbn in Hfirst;
      match type of Hfirst with
      | context [subplots mpl ?n ?figsize] =>
          destruct (subplots mpl n figsize) as [[]|what]; [|discriminate]
      end;
      cbn in Hfirst; injection Hfirst as <- <- _; split; reflexivity.
  - intros a l ->.
    apply bind_ok_inv in Hfirst. destruct Hfirst as (n & w2 & Hlen & Hfirst).
    destruct (negb _); [discriminate|].
    cbn in Hlen. injection Hlen as _ <-.
    cbn in Hfirst. injection Hfirst as <- <- _. split; reflexivity.
Qed.

End PlotResult.

(* ================================================================== *)
(** * The view limits that [plot_trace] sets *)



Lemma kl_ret {A} (a : A) : keeps_limits (ret a).
Proof. intros w b. split; reflexivity. Qed.

Lemma kl_raise {A} (e : exn) : keeps_limits (@raise A e).
Proof. intros w b. split; reflexivity. Qed.

Lemma kl_lift {A} (r : result A) : keeps_limits (lift r).
Proof. intros w b. split; reflexivity. Qed.

Lemma kl_call {A} (o : outcome A) : keeps_limits (call o).
Proof. destruct o; intros w b; split; reflexivity. Qed.

Lemma kl_bind {A B} (m : M A) (k : A -> M B) :
  keeps_limits m -> (forall a, keeps_limits (k a)) -> keeps_limits (bind m k).
Proof.
  intros Hm Hk w b. specialize (Hm w b). unfold bind.
  destruct (m w) as [[a|e] w1]; cbn [snd] in *; [|exact Hm].
  specialize (Hk a w1 b). destruct Hm as [Hx Hy], Hk as [Hx' Hy'].
  split; congruence.
Qed.

Lemma kl_get_world : keeps_limits get_world.
Proof. intros w b. split; reflexivity. Qed.

Lemma kl_get_axes (a : nat) : keeps_limits (get_axes a).
Proof. intros w b. split; reflexivity. Qed.

Lemma kl_as_axes (attr : string) (o : pyobj) : keeps_limits (as_axes attr o).
Proof. destruct o; intros w b; split; reflexivity. Qed.

Lemma kl_py_truth (o : pyobj) : keeps_limits (py_truth o).
Proof. destruct o as [| |l|[|x [|y l]]]; intros w b; split; reflexivity. Qed.

Lemma kl_modify_axes (a : nat) (f : Axes float -> Axes float) :
  (forall ax, get_xlim (f ax) = get_xlim ax /\ get_ylim (f ax) = get_ylim ax) ->
  keeps_limits (modify_axes a f).
Proof.
  intros Hf w b. cbn. unfold update.
  destruct (Nat.eqb_spec b a) as [->|_]; [apply Hf | split; reflexivity].
Qed.

Lemma kl_modify_figure (g : nat) (f : Figure -> Figure) : keeps_limits (modify_figure g f).
Proof. intros w b. split; reflexivity. Qed.

Create HintDb kl.
#[local] Hint Resolve kl_ret kl_raise kl_lift kl_call kl_get_world kl_get_axes kl_as_axes
  kl_py_truth kl_modify_figure : kl.

Ltac kl_auto :=
  repeat first
    [ solve [auto with kl]
    | apply kl_modify_axes; intros ?; split; reflexivity
    | apply kl_bind; [|intros ?]
    | match goal with
      | |- keeps_limits (let (_, _) := ?x in _) => destruct x
      | |- keeps_limits (if ?b then _ else _) => destruct b
      | |- keeps_limits (match ?x with _ => _ end) => destruct x
      end ].

Lemma kl_ax_plot (mpl : Matplotlib) (o : pyobj) (l : Line float) :
  keeps_limits (ax_plot mpl o l).
Proof. unfold ax_plot. kl_auto. Qed.

Lemma kl_ax_text (o : pyobj) (t : Text float) : keeps_limits (ax_text o t).
Proof.
  unfold ax_text. apply kl_bind; [auto with kl|]. intros a.
  intros w b. cbn. unfold update.
  destruct (Nat.eqb_spec b a) as [->|_]; split; reflexivity.
Qed.

Lemma kl_text_set_position (t : nat * nat) (p : float * float) :
  keeps_limits (text_set_position t p).
Proof. unfold text_set_position. kl_auto. Qed.

Lemma kl_ax_set_xlabel (o : pyobj) (s : string) (f : float) :
  keeps_limits (ax_set_xlabel o s f).
Proof. unfold ax_set_xlabel. kl_auto. Qed.

Lemma kl_ax_set_ylabel (o : pyobj) (s : string) (f : float) :
  keeps_limits (ax_set_ylabel o s f).
Proof. unfold ax_set_ylabel. kl_auto. Qed.

Lemma kl_hide_spines (o : pyobj) : keeps_limits (hide_spines o).
Proof. unfold hide_spines. kl_auto. Qed.

Lemma kl_ax_get_figure (o : pyobj) : keeps_limits (ax_get_figure o).
Proof. unfold ax_get_figure. kl_auto. Qed.

Lemma kl_fig_set_suptitle (g : nat) (s : string) (f : float) :
  keeps_limits (fig_set_suptitle g s f).
Proof. unfold fig_set_suptitle. kl_auto. Qed.

Lemma kl_fig_set_tight_layout (g : nat) : keeps_limits (fig_set_tight_layout g).
Proof. unfold fig_set_tight_layout. kl_auto. Qed.

#[local] Hint Resolve kl_ax_plot kl_ax_text kl_text_set_position kl_ax_set_xlabel
  kl_ax_set_ylabel kl_hide_spines kl_ax_get_figure kl_fig_set_suptitle
  kl_fig_set_tight_layout : kl.

Section PlotLimits.
Variables ExploreStyle PaperStyle : Style.
Variable mpl : Matplotlib.

Lemma kl_get_text_bbox (t : nat * nat) (o : pyobj) (d : bool) :
  keeps_limits (get_text_bbox mpl t o d).
Proof. unfold get_text_bbox. kl_auto. Qed.
Hint Resolve kl_get_text_bbox : kl.

Lemma kl_draw_scale_bars (o : pyobj) (is_current : bool) (style : style_arg) :
  keeps_limits (draw_scale_bars ExploreStyle PaperStyle mpl o is_current style).
Proof.
  unfold draw_scale_bars, move_labels, call_compute_scale_bar_length,
    call_compute_scale_bar_position.
  kl_auto.
Qed.
Hint Resolve kl_draw_scale_bars : kl.
















End PlotLimits.

(* ================================================================== *)
(** * The statements at sample inputs *)

(** C2 at the time range [0, 100]: 20 ties with the selected length, which
    is below it. *)
Lemma compute_scale_bar_length_tie_smaller_witness :
  let axis := axes_with_limits (0, 100)%float (-80, 20)%float in
  exists t v,
    compute_scale_bar_length axis false 0.15%float = Some (t, v) /\
    (distance_to (time_target axis 0.15%float) (PyInt 20)
     =? distance_to (time_target axis 0.15%float) t)%float = true /\
    (to_float t <=? to_float (PyInt 20))%float = true.
Proof.
  intros axis.
  destruct (proj1 compute_scale_bar_length_tie_smaller axis false 0.15%float)
    as (t & v & E & Ht & _).
  exists t, v.
  assert (Et : t = PyInt 10).
  { assert (E' : compute_scale_bar_length axis false 0.15%float
                 = Some (@PyInt float 10, @PyInt float 10)) by (vm_compute; reflexivity).
    rewrite E in E'. injection E' as -> _. reflexivity. }
  assert (Htie : (distance_to (time_target axis 0.15%float) (PyInt 20)
                  =? distance_to (time_target axis 0.15%float) t)%float = true)
    by (rewrite Et; vm_compute; reflexivity).
  split; [exact E|]. split; [exact Htie|].
  apply Ht; [|exact Htie].
  unfold valid_time_bar_length. cbn [In]. do 6 right. left. reflexivity.
Defined.

(** C6 at the name "poster". *)
Lemma define_style_resolution_witness :
  define_style plain_style plain_style (StyleName "poster")
  = Raise (ValueError "Unknown style: poster").
Proof.
  apply (proj2 (proj2 (proj2 (define_style_resolution plain_style plain_style))));
    discriminate.
Defined.

(** C7 at a list of two axes where one plot is required. *)
Lemma plot_trace_shape_mismatch_witness :
  snd (plot_trace plain_style plain_style fixed_extent
         (NdArray [0; 1]%float) (NdArray [-70; -60]%float) None None
         (PyListOf [0; 1]%nat) (StyleObj plain_style) blank_world)
  = blank_world.
Proof.
  apply (proj2 (plot_trace_shape_mismatch plain_style plain_style fixed_extent
                  (NdArray [0; 1]%float) (NdArray [-70; -60]%float) None None
                  (PyListOf [0; 1]%nat) (StyleObj plain_style) blank_world)).
  reflexivity.
Defined.

(** C5 on the axes 0 of the blank world, with fixed measurements (height 1,
    width 2): the lengths are 0.1 and 0.1, the origin is (-0.12, 0), and the
    labels end at the stated positions. *)
Lemma draw_scale_bars_label_positions_witness :
  exists w',
    draw_scale_bars plain_style plain_style fixed_extent (AxesObj 0) false
      (StyleObj plain_style) blank_world = (Ok tt, w') /\
    map (@text_pos float) (texts_of w' 0)
    = [((-0.12 + 0.5 * 0.1)%float, (0 - 1.8 * 1)%float);
       ((-0.12 - 1.3 * 2)%float, (0 + 0.5 * 0.1)%float)].
Proof.
  destruct (proj2 (draw_scale_bars_label_positions plain_style plain_style fixed_extent)
              0%nat false plain_style blank_world)
    as (t & v & dt & dv & E & Edt & Edv & H).
  vm_compute in E. injection E as <- <-.
  vm_compute in Edt. injection Edt as <-.
  vm_compute in Edv. injection Edv as <-.
  cbv zeta in H. destruct (H eq_refl eq_refl) as (w1 & _ & H1).
  change (window_extent fixed_extent w1 (0%nat, List.length (texts_of blank_world 0)))
    with (Returns (mkBBox 0 0 2 1)) in H1.
  cbv beta iota zeta in H1. destruct H1 as (w2 & _ & H2).
  change (window_extent fixed_extent w2 (0%nat, S (List.length (texts_of blank_world 0))))
    with (Returns (mkBBox 0 0 2 1)) in H2.
  cbv beta iota zeta in H2. destruct H2 as (w' & Hdraw & Htexts).
  exists w'. split; [exact Hdraw|].
  rewrite Htexts. vm_compute. reflexivity.
Defined.

(** C9 on the labelled world, with fixed measurements: the two labels are
    moved by the first run and stay where they are in the second. *)
Lemma move_labels_idempotent_witness :
  let once :=
    move_labels fixed_extent (AxesObj 0) (5, 5)%float (PyInt 10) (PyInt 10)
                (0, 0)%nat (0, 1)%nat labelled_world in
  let twice :=
    move_labels fixed_extent (AxesObj 0) (5, 5)%float (PyInt 10) (PyInt 10)
                (0, 0)%nat (0, 1)%nat (snd once) in
  (fst once = Ok tt /\ fst twice = Ok tt /\ same_objects (snd twice) (snd once)) /\
  map (@text_pos float) (texts_of labelled_world 0)
  = [((-0.12 + 0.5 * 0.1)%float, (0 - 1.8 * 1)%float);
     ((-0.12 - 1.3 * 2)%float, (0 + 0.5 * 0.1)%float)] /\
  map (@text_pos float) (texts_of (snd once) 0)
  = [((5 + 0.5 * 10)%float, (5 - 1.8 * 1)%float);
     ((5 - 1.3 * 2)%float, (5 + 0.5 * 10)%float)] /\
  map (@text_pos float) (texts_of (snd twice) 0)
  = map (@text_pos float) (texts_of (snd once) 0).
Proof.
  intros once twice. split.
  - apply (move_labels_idempotent fixed_extent 0 (5, 5)%float (PyInt 10) (PyInt 10)
             0 1 labelled_world 1%float 2%float);
      intros w0; eexists; split; reflexivity.
  - repeat split; vm_compute; reflexivity.
Defined.

(** C10 at a two-point trace, the preset "explore" having no scale bars;
    with a matplotlib that accepts every call the error is the
    [AttributeError]. *)
Lemma plot_trace_no_current_no_scale_bars_witness :
  (exists e,
     fst (plot_trace plain_style plain_style fixed_extent
            (NdArray [0; 1]%float) (NdArray [-70; -60]%float) None None
            PyNone (StyleName "explore") blank_world) = Raise e) /\
  fst (plot_trace plain_style plain_style fixed_extent
         (NdArray [0; 1]%float) (NdArray [-70; -60]%float) None None
         PyNone (StyleObj plain_style) blank_world)
  = Raise (AttributeError "'NoneType' object has no attribute 'set_xlabel'").
Proof.
  split.
  - apply (proj1 (plot_trace_no_current_no_scale_bars plain_style plain_style fixed_extent)
             (NdArray [0; 1]%float) (NdArray [-70; -60]%float) None PyNone
             (StyleName "explore") plain_style blank_world);
      reflexivity.
  - apply (proj2 (proj2 (plot_trace_no_current_no_scale_bars plain_style plain_style
                           fixed_extent))
             0%float [1%float] (-70)%float [(-60)%float] None plain_style blank_world
             (0, 1)%float (-70, -60)%float);
      reflexivity.
Defined.

(** X1 at the time range [0, 100]: 20 is not nearer to the target 15 than
    the selected length. *)
Lemma compute_scale_bar_length_nearest_witness :
  let axis := axes_with_limits (0, 100)%float (-80, 20)%float in
  exists t v,
    compute_scale_bar_length axis false 0.15%float = Some (t, v) /\
    (distance_to (time_target axis 0.15%float) (PyInt 20)
     <? distance_to (time_target axis 0.15%float) t)%float = false.
Proof.
  intros axis.
  destruct (proj1 compute_scale_bar_length_nearest axis false 0.15%float)
    as (t & v & E & Ht & _).
  exists t, v. split; [exact E|].
  apply Ht. unfold valid_time_bar_length. cbn [In]. do 6 right. left. reflexivity.
Defined.

(** X2 at the voltage range [-1e308, 1e308], whose width overflows. *)
Lemma compute_scale_bar_length_not_finite_witness :
  exists t,
    compute_scale_bar_length (axes_with_limits (0, 100)%float (-1e308, 1e308)%float)
      false 0.15%float
    = Some (t, PyFloat 0.1%float).
Proof.
  apply (proj2 compute_scale_bar_length_not_finite
           (axes_with_limits (0, 100)%float (-1e308, 1e308)%float) false 0.15%float).
  vm_compute. reflexivity.
Defined.

(** X3 at the float 1.50, formatted as 15E-1. *)
Lemma format_float_no_trailing_zero_witness :
  (-1 = 0)%Z \/ (15 mod 10 <> 0)%N.
Proof.
  apply (format_float_no_trailing_zero (PyFloat 1.50%float) false 15 (-1)).
  vm_compute. reflexivity.
Defined.


(** X5 at the float 1000.0: [Decimal("1000.0")] and the result 1000 are
    equal. *)
Lemma format_float_keeps_value_witness :
  Decimal.eqb (Decimal.Finite false 10000 (-1)) (Decimal.Finite false 1000 0) = true.
Proof.
  apply (format_float_keeps_value (PyFloat 1000.0%float)).
  - vm_compute. reflexivity.
  - vm_compute. discriminate.
  - vm_compute. reflexivity.
Defined.

(** X6 at the float infinity. *)
Lemma format_float_not_finite_witness :
  exists msg, format_float (PyFloat infinity) = Raise (InvalidOperation msg).
Proof. apply (format_float_not_finite infinity). vm_compute. reflexivity. Defined.

(** X7 on the axes 0 of the blank world, where the lengths are 0.1 and
    0.1. *)
Lemma draw_scale_bars_draws_the_bars_witness :
  let origin := compute_scale_bar_position (axes_of blank_world 0) (PyFloat 0.1%float) false in
  let bar_t := mkLine [fst origin; (fst origin + 0.1)%float]
                      [snd origin; snd origin] "black" None (Some 1%float) false in
  let bar_v := mkLine [fst origin; fst origin]
                      [snd origin; (snd origin + 0.1)%float]
                      "black" None (Some 1%float) false in
  exists r w',
    draw_scale_bars plain_style plain_style fixed_extent
      (AxesObj 0) false (StyleObj plain_style) blank_world = (r, w') /\
    ax_lines (axes_of w' 0) = (ax_lines (axes_of blank_world 0) ++ [bar_t; bar_v])%list.
Proof.
  apply (draw_scale_bars_draws_the_bars plain_style plain_style fixed_extent
           0%nat false plain_style blank_world (PyFloat 0.1%float) (PyFloat 0.1%float));
    [vm_compute; reflexivity | reflexivity | reflexivity].
Defined.

(** X8 on the same axes: the labels read "0.1 ms" and "0.1 mV". *)
Lemma draw_scale_bars_label_texts_witness :
  exists n u p q r w',
    draw_scale_bars plain_style plain_style fixed_extent
      (AxesObj 0) false (StyleObj plain_style) blank_world = (r, w') /\
    In n ["0.1"; "0.5"; "1"; "2"; "5"; "10"; "20"; "50"; "100"; "200"; "500";
          "1000"; "2000"; "5000"] /\
    In u ["0.1"; "0.5"; "1"; "2"; "5"; "10"; "20"; "50"; "100"] /\
    texts_of w' 0
    = (texts_of blank_world 0 ++
       [mkText p (n ++ " ms") "center" "bottom" (scale_bars_fontsize plain_style);
        mkText q (u ++ " mV") "left" "center" (scale_bars_fontsize plain_style)])%list.
Proof.
  apply (draw_scale_bars_label_texts plain_style plain_style fixed_extent
           0%nat false plain_style blank_world (PyFloat 0.1%float) (PyFloat 0.1%float));
    [vm_compute; reflexivity | reflexivity | reflexivity].
Defined.

(** X9 at [axis = None]. *)
Lemma draw_scale_bars_failures_witness :
  draw_scale_bars plain_style plain_style fixed_extent PyNone false
    (StyleObj plain_style) blank_world
  = (Raise (AttributeError "'NoneType' object has no attribute 'get_xlim'"), blank_world).
Proof.
  apply (proj2 (draw_scale_bars_failures plain_style plain_style fixed_extent)
           PyNone false (StyleObj plain_style) plain_style blank_world).
  - reflexivity.
  - intros a. discriminate.
Defined.

(** X10 at [axis = None]. *)
Lemma hide_spines_idempotent_witness :
  hide_spines PyNone blank_world
  = (Raise (AttributeError "'NoneType' object has no attribute 'spines'"), blank_world).
Proof.
  apply (proj2 hide_spines_idempotent PyNone blank_world).
  intros a. discriminate.
Defined.

(** X11 at a two-point trace with a current series and no axis. *)
Lemma plot_trace_series_arguments_witness :
  series_values sample_time <> [] /\
  (exists v0 vs, sample_voltage = NdArray (v0 :: vs)) /\
  (forall cs, Some sample_current = Some cs -> exists c0 cs', cs = NdArray (c0 :: cs')).
Proof.
  apply (plot_trace_series_arguments plain_style plain_style fixed_extent
           sample_time sample_voltage (Some sample_current) None PyNone
           (StyleObj plain_style) blank_world (0%nat, NdArrayOf [0; 1]%nat)).
  vm_compute. reflexivity.
Defined.

(** X12 at a list of two axes and a current series. *)
Lemma plot_trace_axis_argument_witness :
  PyListOf [0; 1]%nat = PyNone \/
  exists a b, PyListOf [0; 1]%nat = PyListOf [a; b] /\
              Some sample_current <> None /\ shared_axis plain_style = false.
Proof.
  apply (plot_trace_axis_argument plain_style plain_style fixed_extent
           sample_time sample_voltage (Some sample_current) None (PyListOf [0; 1]%nat)
           (StyleObj plain_style) plain_style blank_world (0%nat, PyListOf [0; 1]%nat)).
  - reflexivity.
  - vm_compute. reflexivity.
Defined.

(** X13 at a two-point trace with a current series and no axis: two plots,
    an array of the two new axes. *)
Lemma plot_trace_result_witness :
  (0 = next_figure blank_world)%nat /\
  NdArrayOf [0; 1]%nat = NdArrayOf [next_axes blank_world; S (next_axes blank_world)].
Proof.
  apply (proj1 (plot_trace_result plain_style plain_style fixed_extent
                  sample_time sample_voltage (Some sample_current) None PyNone
                  (StyleObj plain_style) plain_style blank_world 0%nat
                  (NdArrayOf [0; 1]%nat) eq_refl eq_refl)).
  reflexivity.
Defined.

